(** * cut_tree.py: fetching arXiv articles by identifier

    A shallow embedding of [cut_tree.py] and the properties of its
    identifier extraction, metadata parsing, per-article pipeline, batch
    coordinator and command-line script.

    Conventions of the embedding.
    - A Python [str] is a [string]; its characters are the code points
      below 256, where the Unicode decimal digits are exactly [0]..[9]
      and the Unicode white space is the set listed in [isspace].
    - A Python [bytes] is a [list byte].
    - A function that may raise returns a [result]; the exception
      classes are the constructors of [exn].
    - [re.search] is a backtracking matcher in continuation-passing
      style: greedy repetitions, leftmost start first.
    - The file system has no symbolic links; what it stores is keyed by
      place, and a path is resolved to its place as [os.path.abspath]
      resolves it. *)

From Stdlib Require Import Ascii String List Arith Lia Bool.
From stdpp Require Import gmap strings list fin_maps pretty.

(** ** Python values, exceptions *)

Definition bytes := list Byte.byte.

(** The two kinds of value that travel through the pipeline. *)
Inductive pyval : Type :=
| PyStr (s : string)
| PyBytes (b : bytes).

(** Exception classes raised on the paths of the program. *)
Inductive exn : Type :=
| ValueError (msg : string)
| AssertionError (msg : string)
| AttributeError (msg : string)
| TypeError (msg : string)
| IndexError (msg : string)
| RuntimeError (msg : string)
| KeyError (key : string)
| FileNotFoundError (path : string)
| FileExistsError (path : string)
| IsADirectoryError (path : string)
| NotADirectoryError (path : string)
| ClientConnectionError
| ClientResponseError (status : nat)
| IPPError (msg : string).

Inductive result (A : Type) : Type :=
| Ok (a : A)
| Raise (e : exn).
Arguments Ok {A} a.
Arguments Raise {A} e.

(** ** Regular expressions ([re]) *)

Module Re.

(** [\d] on code points below 256. *)
Definition is_digit (c : ascii) : bool :=
  (48 <=? nat_of_ascii c) && (nat_of_ascii c <=? 57).

(** [.] without DOTALL: anything but a line feed. *)
Definition is_any (c : ascii) : bool := negb (Ascii.eqb c "010"%char).

(** The fragment of the pattern language the two patterns use: literal
    text, a greedy bounded repetition of a one-character class
    ([\d*], [\d{4}], [\d{5,6}], [.*]), concatenation and numbered
    capture groups. *)
Inductive regex : Type :=
| Lit (t : string)
| Rep (p : ascii -> bool) (lo : nat) (hi : option nat)
| Cat (r1 r2 : regex)
| Grp (n : nat) (r : regex).

Abbreviation groups := (gmap nat string).

(** [lit t s]: [s] with the prefix [t] removed, when it starts with [t]. *)
Fixpoint lit (t s : string) : option string :=
  match t, s with
  | EmptyString, _ => Some s
  | String a t', String b s' => if Ascii.eqb a b then lit t' s' else None
  | String _ _, EmptyString => None
  end.

(** May one more repetition be taken under the upper bound? *)
Definition more (hi : option nat) : bool :=
  match hi with Some 0 => false | _ => true end.

Definition dec_hi (hi : option nat) : option nat :=
  match hi with Some h => Some (pred h) | None => None end.

(** Greedy repetition: take one more character when allowed, and fall
    back to stopping here when the rest of the pattern fails after it. *)
Fixpoint rep {A : Type} (p : ascii -> bool) (lo : nat) (hi : option nat)
    (s : string) (k : string -> option A) {struct s} : option A :=
  let stop := match lo with 0 => k s | S _ => None end in
  match s with
  | String c s' =>
      if p c && more hi then
        match rep p (pred lo) (dec_hi hi) s' k with
        | Some x => Some x
        | None => stop
        end
      else stop
  | EmptyString => stop
  end.

(** The first [n] characters of [s]. *)
Fixpoint take_str (n : nat) (s : string) : string :=
  match n, s with
  | S n', String c s' => String c (take_str n' s')
  | _, _ => EmptyString
  end.

(** The text consumed between the input [s] and its suffix [s']. *)
Definition consumed (s s' : string) : string :=
  take_str (String.length s - String.length s') s.

(** The backtracking matcher.  The continuation [k] is the rest of the
    pattern; it receives the remaining input and the groups set so far. *)
Fixpoint exec {A : Type} (r : regex) (s : string) (g : groups)
    (k : string -> groups -> option A) : option A :=
  match r with
  | Lit t => match lit t s with Some s' => k s' g | None => None end
  | Rep p lo hi => rep p lo hi s (fun s' => k s' g)
  | Cat r1 r2 => exec r1 s g (fun s' g' => exec r2 s' g' k)
  | Grp n r1 => exec r1 s g (fun s' g' => k s' (<[n := consumed s s']> g'))
  end.

(** A match anchored at the start of [s]; group 0 is the whole match. *)
Definition match_at (r : regex) (s : string) : option groups :=
  exec r s ∅ (fun s' g => Some (<[0 := consumed s s']> g)).

(** [re.search]: the match at the leftmost position that has one. *)
Fixpoint search (r : regex) (s : string) : option groups :=
  match match_at r s with
  | Some m => Some m
  | None =>
      match s with
      | EmptyString => None
      | String _ s' => search r s'
      end
  end.

(** [match.group(n)] of a group that took part in the match. *)
Definition group (m : groups) (n : nat) : string := default "" (m !! n).

(** *** The language of a pattern *)

Fixpoint all_chars (p : ascii -> bool) (w : string) : bool :=
  match w with
  | EmptyString => true
  | String c w' => p c && all_chars p w'
  end.

Definition within (hi : option nat) (n : nat) : Prop :=
  match hi with Some h => n <= h | None => True end.

(** [matches r w g g']: the text [w] is in the language of [r], and
    matching it turns the group table [g] into [g']. *)
Inductive matches : regex -> string -> groups -> groups -> Prop :=
| M_Lit t g : matches (Lit t) t g g
| M_Rep p lo hi w g :
    all_chars p w = true -> lo <= String.length w ->
    within hi (String.length w) ->
    matches (Rep p lo hi) w g g
| M_Cat r1 r2 w1 w2 g g1 g2 :
    matches r1 w1 g g1 -> matches r2 w2 g1 g2 ->
    matches (Cat r1 r2) (w1 +:+ w2) g g2
| M_Grp n r w g g1 :
    matches r w g g1 -> matches (Grp n r) w g (<[n := w]> g1).

(** [w] is in the language of [r]. *)
Definition in_lang (r : regex) (w : string) : Prop :=
  exists g, matches r w ∅ g.

End Re.

(** ** String methods *)

(** [str.isspace] on code points below 256. *)
Definition isspace (c : ascii) : bool :=
  let n := nat_of_ascii c in
  ((9 <=? n) && (n <=? 13)) || ((28 <=? n) && (n <=? 32))
  || (n =? 133) || (n =? 160).

Fixpoint lstrip (s : string) : string :=
  match s with
  | String c s' => if isspace c then lstrip s' else s
  | EmptyString => EmptyString
  end.

Fixpoint rstrip (s : string) : string :=
  match s with
  | EmptyString => EmptyString
  | String c s' =>
      match rstrip s' with
      | EmptyString => if isspace c then EmptyString else String c EmptyString
      | r => String c r
      end
  end.

(** [s.strip()] *)
Definition strip (s : string) : string := rstrip (lstrip s).

(** [s.rstrip(ch)] for a one-character argument. *)
Fixpoint rstrip_char (ch : ascii) (s : string) : string :=
  match s with
  | EmptyString => EmptyString
  | String c s' =>
      match rstrip_char ch s' with
      | EmptyString => if Ascii.eqb c ch then EmptyString else String c EmptyString
      | r => String c r
      end
  end.

(** [s.split(sep)] for a one-character separator, as the first token and
    the tokens after it. *)
Fixpoint split_go (sep : ascii) (s : string) : string * list string :=
  match s with
  | EmptyString => (EmptyString, [])
  | String c s' =>
      let '(tok, toks) := split_go sep s' in
      if Ascii.eqb c sep then (EmptyString, tok :: toks)
      else (String c tok, toks)
  end.

Definition split (sep : ascii) (s : string) : list string :=
  let '(tok, toks) := split_go sep s in tok :: toks.

(** [sep.join(l)] *)
Fixpoint join (sep : string) (l : list string) : string :=
  match l with
  | [] => ""
  | [x] => x
  | x :: rest => x +:+ sep +:+ join sep rest
  end.

(** ** The module's constants *)

Definition ARXIV_ABS_URL_BASE : string := "https://arxiv.org/abs/".
Definition ARXIV_PDF_URL_BASE : string := "https://arxiv.org/pdf/".

(** The title pattern: the literal opening tag and bracket, group 1 (digits,
    a dot, digits), the closing bracket, group 2 (any run of characters
    of one line), the literal closing tag. *)
Definition FIND_TITLE_REGEX : Re.regex :=
  Re.Cat (Re.Lit "<title>[")
    (Re.Cat (Re.Grp 1 (Re.Cat (Re.Rep Re.is_digit 0 None)
                         (Re.Cat (Re.Lit ".") (Re.Rep Re.is_digit 0 None))))
       (Re.Cat (Re.Lit "]")
          (Re.Cat (Re.Grp 2 (Re.Rep Re.is_any 0 None))
             (Re.Lit "</title>")))).

(** The identifier pattern: four digits, a dot, five or six digits. *)
Definition FIND_ID_REGEX : Re.regex :=
  Re.Cat (Re.Rep Re.is_digit 4 (Some 4))
    (Re.Cat (Re.Lit ".") (Re.Rep Re.is_digit 5 (Some 6))).

(** ** The network and the trace of a run *)

(** What a GET is answered with: the status, and the body as
    [resp.text()] and [resp.read()] give it. *)
Record response : Type := {
  status : nat;
  text : string;
  body : bytes
}.

(** The remote side: the answer to a GET of a URL, or no connection. *)
Abbreviation server := (string -> option response).

(** What a run does that can be observed, in the order it does it.
    [log.debug] records are below the logger's level and leave none. *)
Inductive event : Type :=
| Info (msg : string)
| InfoGot (line : string) (title : pyval)
| Get (url : string)
| Call (title content : pyval)
| Done (title content : pyval).

(** A computation that leaves a trace and returns or raises. *)
Definition io (A : Type) : Type := (list event * result A)%type.

Definition ret {A : Type} (a : A) : io A := ([], Ok a).
Definition raise {A : Type} (e : exn) : io A := ([], Raise e).
Definition emit (e : event) : io unit := ([e], Ok tt).

Definition bind {A B : Type} (m : io A) (f : A -> io B) : io B :=
  match m with
  | (t, Ok a) => let '(t', r) := f a in (t ++ t', r)
  | (t, Raise e) => (t, Raise e)
  end.

Notation "x <- m ;; k" := (bind m (fun x => k))
  (at level 100, m at level 99, right associativity).
Notation "m ;;; k" := (bind m (fun _ => k))
  (at level 100, right associativity).

Definition trace {A : Type} (m : io A) : list event := fst m.
Definition outcome {A : Type} (m : io A) : result A := snd m.

(** [session.get(url)] *)
Definition session_get (srv : server) (url : string) : io response :=
  emit (Get url) ;;;
  match srv url with
  | Some resp => ret resp
  | None => raise ClientConnectionError
  end.

(** [resp.raise_for_status()] *)
Definition raise_for_status (resp : response) : io unit :=
  if 400 <=? status resp then raise (ClientResponseError (status resp))
  else ret tt.

(** ** The functions of the module *)

Definition get_pdf_file (srv : server) (aid : string) : io bytes :=
  let url := ARXIV_PDF_URL_BASE +:+ aid in
  resp <- session_get srv url ;;
  raise_for_status resp ;;;
  ret (body resp).

(** [match.group] on the [None] of a failed search is the
    [AttributeError]. *)
Definition get_pdf_name (srv : server) (aid : string) : io (string * string) :=
  let url := ARXIV_ABS_URL_BASE +:+ aid in
  resp <- session_get srv url ;;
  raise_for_status resp ;;;
  let xml := text resp in
  match Re.search FIND_TITLE_REGEX xml with
  | Some m => ret (Re.group m 1, strip (Re.group m 2))
  | None => raise (AttributeError "'NoneType' object has no attribute 'group'")
  end.

Definition get_article_id (line : string) : result string :=
  match Re.search FIND_ID_REGEX line with
  | Some m => Ok (Re.group m 0)
  | None => Raise (ValueError ("invalid input " +:+ line))
  end.

Definition lift {A : Type} (r : result A) : io A := ([], r).

Definition assert (b : bool) (msg : string) : io unit :=
  if b then ret tt else raise (AssertionError msg).

Definition process_one_article (srv : server) (article_uri : string)
  : io (pyval * pyval) :=
  aid <- lift (get_article_id article_uri) ;;
  emit (Info ("processing article " +:+ aid)) ;;;
  name <- get_pdf_name srv aid ;;
  let '(parsed_aid, text_title) := name in
  assert (String.eqb aid parsed_aid)
    ("id " +:+ aid +:+ " obtained from input does not match id "
       +:+ parsed_aid +:+ " from server") ;;;
  pdf_file <- get_pdf_file srv aid ;;
  ret (PyBytes pdf_file, PyStr text_title).

(** ** The batch coordinator *)

Section Coordinator.

(** The state the post-processing callback acts on. *)
Context {W : Type}.

(** An awaited callback: it runs to its end, returns or raises, and
    leaves the state it reached. *)
Definition callback : Type := pyval -> pyval -> W -> result unit * W.

(** [asyncio.as_completed]: the outcomes of the tasks in the order in
    which they complete; [order] lists the task indices in that order. *)
Definition as_completed {A : Type} (tasks : list A) (order : list nat)
  : list A :=
  omap (fun j => tasks !! j) order.

(** The body of the [for] loop of [main], over the results still to
    come; [aidx] is the counter of [enumerate]. *)
Fixpoint consume (article_list : list string)
    (postproc_fn : option callback) (aidx : nat)
    (completed : list (result (pyval * pyval))) (w : W)
  : list event * result unit * W :=
  match completed with
  | [] => ([], Ok tt, w)
  | Raise e :: _ => ([], Raise e, w)
  | Ok (pdf_file, title) :: rest =>
      match article_list !! aidx with
      | None => ([], Raise (IndexError "list index out of range"), w)
      | Some line =>
          match postproc_fn with
          | None =>
              let '(t, r, w') :=
                consume article_list postproc_fn (S aidx) rest w in
              (InfoGot line title :: t, r, w')
          | Some f =>
              match f title pdf_file w with
              | (Raise e, w1) =>
                  ([InfoGot line title; Call title pdf_file], Raise e, w1)
              | (Ok _, w1) =>
                  let '(t, r, w') :=
                    consume article_list postproc_fn (S aidx) rest w1 in
                  (InfoGot line title :: Call title pdf_file
                     :: Done title pdf_file :: t, r, w')
              end
          end
      end
  end.

(** [main]: one task per line, consumed in completion order.  The
    events of the pipeline runs themselves are in the runs' own
    traces; the trace here is the coordinator's. *)
Definition main (srv : server) (order : list nat)
    (article_list : list string) (postproc_fn : option callback) (w : W)
  : list event * result unit * W :=
  let tasks := map (process_one_article srv) article_list in
  consume article_list postproc_fn 0
    (as_completed (map outcome tasks) order) w.

End Coordinator.

Arguments callback W : clear implicits.

(** ** The script *)

(** *** The file system *)

Inductive node : Type :=
| Dir
| File (content : bytes).

(** The file system as the process sees it, without symbolic links: the
    working directory of the process, and what is stored at each place.
    A place is an absolute path without redundancy, given by its
    components from the root down. *)
Record filesystem : Type := {
  cwd : list string;
  tree : gmap (list string) node
}.

(** One component further along a path: an empty component and [.]
    stay, [..] goes up (the root is its own parent). *)
Definition step (cur : list string) (c : string) : list string :=
  if String.eqb c "" || String.eqb c "." then cur
  else if String.eqb c ".." then removelast cur
  else cur ++ [c].

(** [os.path.abspath], in components: the place that a path names, from
    the root when the path starts with a slash and from the working
    directory otherwise.  A [..] cancels the component before it, which
    is how the system reads the path when that component is a
    directory. *)
Definition abspath (fsys : filesystem) (p : string) : list string :=
  fold_left step (split "/"%char p)
    (if String.prefix "/" p then [] else cwd fsys).

Fixpoint is_prefix (k l : list string) : bool :=
  match k, l with
  | [], _ => true
  | _ :: _, [] => false
  | a :: k', b :: l' => String.eqb a b && is_prefix k' l'
  end.

(** What is at a place.  The directories from the root down to the
    working directory are there; elsewhere it is what the file system
    stores. *)
Definition node_at (fsys : filesystem) (k : list string) : option node :=
  if is_prefix k (cwd fsys) then Some Dir else tree fsys !! k.

(** The path asks for a directory: it ends with a slash, or with [.] or
    [..]. *)
Definition ends_as_dir (p : string) : bool :=
  match last (split "/"%char p) with
  | Some c => String.eqb c "" || String.eqb c "." || String.eqb c ".."
  | None => true
  end.

(** [os.stat]: what the path names.  The empty path names nothing, and
    a file does not answer to a path that asks for a directory. *)
Definition stat (fsys : filesystem) (p : string) : result node :=
  if String.eqb p "" then Raise (FileNotFoundError p)
  else
    match node_at fsys (abspath fsys p) with
    | None => Raise (FileNotFoundError p)
    | Some Dir => Ok Dir
    | Some (File c) =>
        if ends_as_dir p then Raise (NotADirectoryError p) else Ok (File c)
    end.

(** [fsys !! p] is what the path [p] names, if anything, and
    [<[p := n]> fsys] stores [n] at the place that [p] names. *)
Global Instance filesystem_lookup : Lookup string node filesystem :=
  fun p fsys => match stat fsys p with Ok n => Some n | Raise _ => None end.

Global Instance filesystem_insert : Insert string node filesystem :=
  fun p n fsys =>
    {| cwd := cwd fsys; tree := <[abspath fsys p := n]> (tree fsys) |}.

(** Nothing but the root, which is the working directory. *)
Global Instance filesystem_empty : Empty filesystem :=
  {| cwd := []; tree := ∅ |}.

Definition endswith_slash (a : string) : bool :=
  negb (String.eqb (rstrip_char "/"%char a) a).

(** [os.path.join] of two components. *)
Definition path_join (a b : string) : string :=
  if String.prefix "/" b then b
  else if String.eqb a "" || endswith_slash a then a +:+ b
  else a +:+ "/" +:+ b.

(** [os.path.isfile], [os.path.isdir], [os.path.exists] *)
Definition isfile (fsys : filesystem) (p : string) : bool :=
  match fsys !! p with Some (File _) => true | _ => false end.

Definition isdir (fsys : filesystem) (p : string) : bool :=
  match fsys !! p with Some Dir => true | _ => false end.

Definition path_exists (fsys : filesystem) (p : string) : bool :=
  match fsys !! p with Some _ => true | None => false end.

(** The last component of the path, trailing slashes apart, is [.] or
    [..]. *)
Definition ends_with_dots (p : string) : bool :=
  match last (split "/"%char (rstrip_char "/"%char p)) with
  | Some c => String.eqb c "." || String.eqb c ".."
  | None => false
  end.

(** [os.mkdir]: the place must be free and its parent a directory.  A
    trailing slash is allowed; a path that ends with [.] or [..] names
    no directory that could be made. *)
Definition mkdir (p : string) (fsys : filesystem) : result filesystem :=
  if String.eqb p "" then Raise (FileNotFoundError p)
  else
    let k := abspath fsys p in
    match node_at fsys k with
    | Some _ => Raise (FileExistsError p)
    | None =>
        match node_at fsys (removelast k) with
        | Some Dir =>
            if ends_with_dots p then Raise (FileNotFoundError p)
            else Ok (<[p := Dir]> fsys)
        | Some (File _) => Raise (NotADirectoryError p)
        | None => Raise (FileNotFoundError p)
        end
    end.

(** Opening for writing creates or truncates the file: the place must
    not be a directory, its parent must be one, and the path must not
    ask for a directory. *)
Definition open_wb (p : string) (fsys : filesystem) : result filesystem :=
  if String.eqb p "" then Raise (FileNotFoundError p)
  else
    let k := abspath fsys p in
    match node_at fsys k with
    | Some Dir => Raise (IsADirectoryError p)
    | _ =>
        match node_at fsys (removelast k) with
        | Some Dir =>
            if ends_as_dir p then Raise (IsADirectoryError p)
            else Ok (<[p := File []]> fsys)
        | Some (File _) => Raise (NotADirectoryError p)
        | None => Raise (FileNotFoundError p)
        end
    end.

(** Is the place that [p] names the one that [d] names, or below it? *)
Definition under (fsys : filesystem) (d p : string) : bool :=
  is_prefix (abspath fsys d) (abspath fsys p).

(** [shutil.rmtree]: the directory goes with all that is below it. *)
Definition rmtree (d : string) (fsys : filesystem) : result filesystem :=
  match stat fsys d with
  | Raise e => Raise e
  | Ok (File _) => Raise (NotADirectoryError d)
  | Ok Dir =>
      Ok {| cwd := cwd fsys;
            tree := filter (fun kv => is_prefix (abspath fsys d) kv.1 = false)
                      (tree fsys) |}
  end.

(** The built-in [open] for reading: its argument is a path; a list is
    refused. *)
Definition open_r (fsys : filesystem) (file : string + list string)
  : result string :=
  match file with
  | inr _ =>
      Raise (TypeError "expected str, bytes or os.PathLike object, not list")
  | inl p =>
      match stat fsys p with
      | Ok (File c) => Ok (String.string_of_list_byte c)
      | Ok Dir => Raise (IsADirectoryError p)
      | Raise e => Raise e
      end
  end.

(** The lines of a text file as iterating over it gives them, each with
    its line feed. *)
Fixpoint file_lines (s : string) : list string :=
  match s with
  | EmptyString => []
  | String c s' =>
      if Ascii.eqb c "010"%char then String c EmptyString :: file_lines s'
      else match file_lines s' with
           | [] => [String c EmptyString]
           | l :: ls => String c l :: ls
           end
  end.

(** *** The state of the process *)

Record world : Type := {
  fs : filesystem;
  temp_dir : option string;
  jobs : list (string * string * string);
  out : list string
}.

Definition set_fs (f : filesystem) (w : world) : world :=
  {| fs := f; temp_dir := temp_dir w; jobs := jobs w; out := out w |}.

Definition set_temp_dir (d : option string) (w : world) : world :=
  {| fs := fs w; temp_dir := d; jobs := jobs w; out := out w |}.

Definition add_job (j : string * string * string) (w : world) : world :=
  {| fs := fs w; temp_dir := temp_dir w; jobs := jobs w ++ [j];
     out := out w |}.

(** [log.info] and [print]: a line of output. *)
Definition say (msg : string) (w : world) : world :=
  {| fs := fs w; temp_dir := temp_dir w; jobs := jobs w;
     out := out w ++ [msg] |}.

(** Truth value of an optional string: [None] and the empty string are
    false. *)
Definition truthy (o : option string) : bool :=
  match o with
  | Some (String _ _) => true
  | _ => false
  end.

(** *** Printing *)

(** A connection to the print service: the printers with their
    attributes, the default destination, and the submission of a file
    (printer, path, title) that answers with a job number. *)
Record cups_conn : Type := {
  getPrinters : gmap string (gmap string string);
  getDefault : option string;
  printFile : string -> string -> string -> result nat
}.

(** The print service of the machine: the binding may be missing, the
    connection may fail. *)
Inductive cups_env : Type :=
| NoPycups
| CupsDown (e : exn)
| Cups (conn : cups_conn).

(** The closure [print_one_file] with what it captures. *)
Record printer : Type := {
  pr_conn : cups_conn;
  pr_name : string
}.

Definition exn_str (e : exn) : string :=
  match e with
  | ValueError m | AssertionError m | AttributeError m | TypeError m
  | IndexError m | RuntimeError m | IPPError m => m
  | KeyError k => "'" +:+ k +:+ "'"
  | FileNotFoundError p | FileExistsError p | IsADirectoryError p
  | NotADirectoryError p => p
  | ClientConnectionError => "Cannot connect to host"
  | ClientResponseError _ => "response status"
  end.

(** The [try] block of [setup_printing]: the printer and its location,
    or what is raised; [None] stands for the [ImportError]. *)
Definition setup_printing_try (cups : cups_env)
  : option (result (printer * string)) :=
  match cups with
  | NoPycups => None
  | CupsDown e => Some (Raise e)
  | Cups conn =>
      let printers := getPrinters conn in
      if bool_decide (printers = ∅)
      then Some (Raise (RuntimeError
                          "you don't have any printers setup with cups"))
      else
        match getDefault conn with
        | None => Some (Raise (KeyError "None"))
        | Some name =>
            match printers !! name with
            | None => Some (Raise (KeyError name))
            | Some attrs =>
                let loc := default "unknown" (attrs !! "printer-location") in
                Some (Ok ({| pr_conn := conn; pr_name := name |}, loc))
            end
        end
  end.

Definition setup_printing (cups : cups_env) (should_print : bool) (w : world)
  : option printer * world :=
  if negb should_print then (None, say "not printing" w)
  else
    match setup_printing_try cups with
    | Some (Ok (pr, loc)) =>
        (Some pr,
         say ("using printer " +:+ pr_name pr +:+ " at location " +:+ loc) w)
    | None =>
        (None,
         say "could not import pycups; make sure you have it installed with `pip install pycups" w)
    | Some (Raise e) => (None, say "not printing" (say (exn_str e) w))
    end.

Definition print_one_file (pr : printer) (filepath job_title : string)
    (w : world) : result unit * world :=
  match printFile (pr_conn pr) (pr_name pr) filepath job_title with
  | Raise e => (Raise e, w)
  | Ok job_id =>
      (Ok tt,
       say ("submitting job " +:+ pretty job_id +:+ " (" +:+ job_title
              +:+ ") to printer")
         (add_job (pr_name pr, filepath, job_title) w))
  end.

(** *** Saving *)

(** [tempfile.mkdtemp]: a new directory under the name the library
    picks. *)
Definition mkdtemp (tmp_name : string) (fsys : filesystem)
  : string * filesystem :=
  (tmp_name, <[tmp_name := Dir]> fsys).

(** The closure [save_file_fn] is given by the [save_dir] it captures.
    [setup_saving] returns it, or [None]. *)
Definition setup_saving (tmp_name : string) (save_dir : option string)
    (print_fn : option printer) (w : world)
  : result (option (option string)) * world :=
  if negb (truthy save_dir) && negb (bool_decide (is_Some print_fn))
  then (Ok None, say "not saving" w)
  else
    if truthy save_dir then
      let d := default "" save_dir in
      if path_exists (fs w) d
      then (Ok (Some save_dir), say ("saving to " +:+ d) w)
      else
        match mkdir d (fs w) with
        | Raise e => (Raise e, w)
        | Ok f => (Ok (Some save_dir), say ("saving to " +:+ d) (set_fs f w))
        end
    else
      match print_fn with
      | Some _ =>
          let '(d, f) := mkdtemp tmp_name (fs w) in
          (Ok (Some (Some d)),
           say ("saving to " +:+ d) (set_temp_dir (Some d) (set_fs f w)))
      | None =>
          (Ok (Some save_dir), say ("saving to " +:+ default "None" save_dir) w)
      end.

Definition save_file_fn (save_dir : option string) (filename : string)
    (bin_content : pyval) (w : world) : result string * world :=
  match save_dir with
  | None =>
      (Raise (TypeError
                "expected str, bytes or os.PathLike object, not NoneType"), w)
  | Some d =>
      let final_path := path_join d filename in
      let w1 := say ("saving " +:+ final_path) w in
      match open_wb final_path (fs w1) with
      | Raise e => (Raise e, w1)
      | Ok f =>
          match bin_content with
          | PyBytes b => (Ok final_path, set_fs (<[final_path := File b]> f) w1)
          | PyStr _ =>
              (Raise (TypeError "a bytes-like object is required, not 'str'"),
               set_fs f w1)
          end
      end
  end.

Definition postprocess_fn (save_fn : option (option string))
    (print_fn : option printer) : callback world :=
  fun title pdf_content w =>
    match save_fn with
    | None => (Ok tt, w)
    | Some save_dir =>
        match title with
        | PyBytes _ => (Raise (TypeError "can't concat str to bytes"), w)
        | PyStr t =>
            match save_file_fn save_dir (t +:+ ".pdf") pdf_content w with
            | (Raise e, w1) => (Raise e, w1)
            | (Ok filepath, w1) =>
                match print_fn with
                | None => (Ok tt, w1)
                | Some pr => print_one_file pr filepath t w1
                end
            end
        end
    end.

(** *** Reading the input *)

Definition generate_article_list (fsys : filesystem)
    (input_str : option string) : result (list string) :=
  if negb (truthy input_str) then Raise (ValueError "must supply input")
  else
    let ret := map strip (split ","%char (default "" input_str)) in
    if length ret =? 0
    then Raise (ValueError "--input invalid; got []")
    else if (length ret =? 1) && isfile fsys (default "" (head ret))
    then
      match open_r fsys (inr ret) with
      | Raise e => Raise e
      | Ok f => Ok (map (rstrip_char "010"%char) (file_lines f))
      end
    else Ok ret.

(** *** The body of the script *)

Record args : Type := {
  arg_save : option string;
  arg_print : bool;
  arg_input : option string
}.

(** What the run depends on besides its arguments: the print service,
    the remote side, the name [mkdtemp] picks and the order in which the
    tasks complete. *)
Record env : Type := {
  env_cups : cups_env;
  env_server : server;
  env_tmp : string;
  env_order : list nat
}.

(** The [try] block. *)
Definition script_try (E : env) (a : args) (w : world) : result unit * world :=
  let '(print_fn, w1) := setup_printing (env_cups E) (arg_print a) w in
  match setup_saving (env_tmp E) (arg_save a) print_fn w1 with
  | (Raise e, w2) => (Raise e, w2)
  | (Ok save_fn, w2) =>
      match generate_article_list (fs w2) (arg_input a) with
      | Raise e => (Raise e, w2)
      | Ok articles =>
          let w3 := say ("given " +:+ join "," articles +:+ " as input") w2 in
          let '(_, r, w4) :=
            main (env_server E) (env_order E) articles
              (Some (postprocess_fn save_fn print_fn)) w3 in
          (r, w4)
      end
  end.

(** The [finally] block: it runs after the [try] block however that
    ended, and what it raises replaces the outcome. *)
Definition script_finally (r : result unit) (w : world) : result unit * world :=
  if truthy (temp_dir w) then
    let w1 := say "deleting temporary directory" w in
    match rmtree (default "" (temp_dir w)) (fs w1) with
    | Ok f => (r, set_fs f w1)
    | Raise e => (Raise e, w1)
    end
  else (r, w).

Definition script (E : env) (a : args) (w : world) : result unit * world :=
  let '(r, w1) := script_try E a w in
  script_finally r w1.

(** The state of a process that starts on the file system [f]. *)
Definition start (f : filesystem) : world :=
  {| fs := f; temp_dir := None; jobs := []; out := [] |}.

(** ** Notions the properties are stated with *)

(** The text [w] is the substring of [s] that starts at position [i]. *)
Definition occurs_at (w : string) (i : nat) (s : string) : Prop :=
  exists pre post, s = pre +:+ w +:+ post /\ String.length pre = i.

(** [w] is the first match of the pattern [r] in [s]: a substring in the
    language of [r] such that no such substring starts before it, and
    none that starts where it does is longer. *)
Definition first_match (r : Re.regex) (s w : string) : Prop :=
  exists i, occurs_at w i s /\ Re.in_lang r w /\
    forall j w2, occurs_at w2 j s -> Re.in_lang r w2 ->
      i < j \/ (i = j /\ String.length w2 <= String.length w).

(** No substring of [s] is in the language of [r]. *)
Definition no_match (r : Re.regex) (s : string) : Prop :=
  forall i w, occurs_at w i s -> ~ Re.in_lang r w.

(** The embedded identifier of a title element: digits, a dot, digits. *)
Definition embedded_id (id : string) : Prop :=
  exists a b, id = a +:+ "." +:+ b /\
    Re.all_chars Re.is_digit a = true /\ Re.all_chars Re.is_digit b = true.

(** A title element with the identifier [id] in brackets and the title
    text [title] after it. *)
Definition title_element (id title : string) : string :=
  "<title>[" +:+ id +:+ "]" +:+ title +:+ "</title>".

Definition starts_with_space (s : string) : bool :=
  match s with
  | String c _ => isspace c
  | EmptyString => false
  end.

Fixpoint ends_with_space (s : string) : bool :=
  match s with
  | EmptyString => false
  | String c EmptyString => isspace c
  | String _ s' => ends_with_space s'
  end.

(** [t] is [s] without the white space around it. *)
Definition trimmed (s t : string) : Prop :=
  exists l r, s = l +:+ t +:+ r /\
    Re.all_chars isspace l = true /\ Re.all_chars isspace r = true /\
    starts_with_space t = false /\ ends_with_space t = false.

(** A status below 400 is what [raise_for_status] lets pass. *)
Definition success (resp : response) : Prop := status resp < 400.

(** The content fetch took place in a trace: a GET of a document URL. *)
Definition fetches_content (t : list event) : Prop :=
  exists aid, In (Get (ARXIV_PDF_URL_BASE +:+ aid)) t.

(** ** Mock remote sides *)

(** Every summary request is answered with [summary], every document
    request with [content]. *)
Definition mock_server (summary : string) (content : bytes) : server :=
  fun url =>
    if String.prefix ARXIV_ABS_URL_BASE url
    then Some {| status := 200; text := summary; body := [] |}
    else if String.prefix ARXIV_PDF_URL_BASE url
    then Some {| status := 200; text := ""; body := content |}
    else None.

(** The bytes of the fake document. *)
Definition pdf_fake : bytes := String.list_byte_of_string "%PDF-FAKE".

Definition attention_server : server :=
  mock_server "<title>[1706.03762] Attention Is All You Need</title>" pdf_fake.

(** A summary whose embedded identifier is not the one asked for. *)
Definition mismatch_server : server :=
  mock_server "<title>[1706.99999] Attention Is All You Need</title>" pdf_fake.

(** A summary without a title element. *)
Definition untitled_server : server :=
  mock_server "<html><body>nothing here</body></html>" pdf_fake.

(** A remote side with two articles. *)
Definition two_server : server :=
  fun url =>
    if String.eqb url "https://arxiv.org/abs/1706.03762"
    then Some {| status := 200;
                 text := "<title>[1706.03762] Attention Is All You Need</title>";
                 body := [] |}
    else if String.eqb url "https://arxiv.org/abs/1810.04805"
    then Some {| status := 200;
                 text := "<title>[1810.04805] BERT</title>";
                 body := [] |}
    else if String.eqb url "https://arxiv.org/pdf/1706.03762"
    then Some {| status := 200; text := ""; body := pdf_fake |}
    else if String.eqb url "https://arxiv.org/pdf/1810.04805"
    then Some {| status := 200; text := ""; body := [] |}
    else None.

(** ** The coordinator's trace *)

(** The (line, title) pairs logged, in order. *)
Definition logged (t : list event) : list (string * pyval) :=
  omap (fun ev => match ev with
                  | InfoGot line title => Some (line, title)
                  | _ => None
                  end) t.

(** The (title, content) pairs the callback was invoked with, in order. *)
Definition calls (t : list event) : list (pyval * pyval) :=
  omap (fun ev => match ev with
                  | Call title content => Some (title, content)
                  | _ => None
                  end) t.

(** Every invocation of the callback has returned before the next
    article is taken up: the trace is a run of blocks, each the log of
    an article, the invocation for it and the return of that
    invocation. *)
Fixpoint awaited (t : list event) : Prop :=
  match t with
  | [] => True
  | InfoGot _ _ :: Call title content :: Done title' content' :: rest =>
      title = title' /\ content = content' /\ awaited rest
  | _ => False
  end.

(** The results of the runs that succeeded, in their order. *)
Definition successes {A : Type} (completed : list (result A)) : list A :=
  omap (fun r => match r with Ok x => Some x | Raise _ => None end) completed.

(** The callback invoked on the results of runs one after the other, as
    [main] invokes it (the title first), from the state [w]: the state
    that is reached when every invocation returns, and [None] when one
    of them raises. *)
Fixpoint invoke_all {W : Type} (f : callback W)
    (results : list (pyval * pyval)) (w : W) : option W :=
  match results with
  | [] => Some w
  | (pdf_file, title) :: rest =>
      match f title pdf_file w with
      | (Ok _, w1) => invoke_all f rest w1
      | (Raise _, _) => None
      end
  end.

(** A callback that counts its invocations. *)
Definition counting : callback nat := fun _ _ n => (Ok tt, S n).

(** The trace and the outcome of a run of the coordinator. *)
Definition main_trace {W : Type} (x : list event * result unit * W)
  : list event := x.1.1.
Definition main_outcome {W : Type} (x : list event * result unit * W)
  : result unit := x.1.2.
Definition main_state {W : Type} (x : list event * result unit * W) : W := x.2.

(** ** Sample file systems and environments *)

(** A file of two identifiers in the working directory. *)
Definition ids_text : string :=
  "1706.03762" +:+ String "010"%char ("1810.04805" +:+ String "010"%char "").

Definition ids_fs : filesystem :=
  {| cwd := ["home"];
     tree := {[ ["home"; "ids.txt"]
                := File (String.list_byte_of_string ids_text) ]} |}.

(** A print service with one printer, the default one. *)
Definition office_conn : cups_conn := {|
  getPrinters := {[ "office" := {[ "printer-location" := "2nd floor" ]} ]};
  getDefault := Some "office";
  printFile := fun _ _ _ => Ok 1
|}.

(** The arguments of a run that prints and does not save. *)
Definition print_only (input : string) : args :=
  {| arg_save := None; arg_print := true; arg_input := Some input |}.

Definition sample_env (cups : cups_env) (order : list nat) : env :=
  {| env_cups := cups; env_server := two_server;
     env_tmp := "/tmp/tmpq1w2e3r4"; env_order := order |}.

(** A file system with the directory for temporary files; the process
    runs in the home directory. *)
Definition tmp_fs : filesystem :=
  {| cwd := ["home"]; tree := {[ ["tmp"] := Dir ]} |}.

(** The state holds the temporary directory [d]: the global names it
    and it is there. *)
Definition holds (d : string) (w : world) : Prop :=
  temp_dir w = Some d /\ fs w !! d = Some Dir.

(** The process holds a temporary directory: the global names a
    directory that is there. *)
Definition holds_temp_dir (w : world) : Prop :=
  exists d, temp_dir w = Some d /\ fs w !! d = Some Dir.

(** A remote side that answers every request with status 503, its body
    a well-formed summary all the same. *)
Definition unavailable_server : server :=
  fun _ => Some {| status := 503;
                   text := "<title>[1706.03762] Attention Is All You Need</title>";
                   body := pdf_fake |}.

(** A remote side that serves the summary and refuses the document. *)
Definition no_document_server : server :=
  fun url =>
    if String.prefix ARXIV_ABS_URL_BASE url
    then Some {| status := 200;
                 text := "<title>[1706.03762] Attention Is All You Need</title>";
                 body := [] |}
    else Some {| status := 404; text := ""; body := [] |}.

(** A callback that raises whenever it is invoked. *)
Definition refusing : callback nat :=
  fun _ _ n => (Raise (RuntimeError "no room"), n).

(** The text holds no comma. *)
Definition comma_free (s : string) : bool :=
  Re.all_chars (fun c => negb (Ascii.eqb c ","%char)) s.

(** A token as [generate_article_list] returns them: no comma in it, no
    white space around it. *)
Definition clean_token (t : string) : Prop :=
  comma_free t = true /\ starts_with_space t = false /\
  ends_with_space t = false.

(** The arguments of a run that saves to [dir] and does not print. *)
Definition save_only (dir input : string) : args :=
  {| arg_save := Some dir; arg_print := false; arg_input := Some input |}.

(** The parts of the state other than the output agree. *)
Definition same_but_out (w w' : world) : Prop :=
  fs w' = fs w /\ temp_dir w' = temp_dir w /\ jobs w' = jobs w.

(** * Properties *)

(** ** Strings *)

Lemma app_nil_l (s : string) : "" +:+ s = s.
Proof. reflexivity. Qed.

Lemma app_cons (c : ascii) (s t : string) :
  String c s +:+ t = String c (s +:+ t).
Proof. reflexivity. Qed.

Lemma app_nil_r (s : string) : s +:+ "" = s.
Proof. induction s as [|c s IH]; [reflexivity|]. rewrite app_cons, IH. reflexivity. Qed.

Lemma app_assoc_str (s t u : string) : (s +:+ t) +:+ u = s +:+ (t +:+ u).
Proof.
  induction s as [|c s IH]; [reflexivity|].
  rewrite !app_cons, IH. reflexivity.
Qed.

Lemma length_app_str (s t : string) :
  String.length (s +:+ t) = String.length s + String.length t.
Proof.
  induction s as [|c s IH]; [reflexivity|].
  rewrite app_cons. simpl. rewrite IH. reflexivity.
Qed.

(** Two prefixes of one string of the same length are the same prefix. *)
Lemma app_inj_length (a b a' b' : string) :
  a +:+ b = a' +:+ b' -> String.length a = String.length a' ->
  a = a' /\ b = b'.
Proof.
  revert a'. induction a as [|c a IH]; intros [|c' a'] E L; try discriminate.
  - split; [reflexivity | exact E].
  - rewrite !app_cons in E. injection E as -> E. simpl in L.
    destruct (IH a' E) as [-> ->]; [lia | split; reflexivity].
Qed.

Lemma take_str_app (w s : string) :
  Re.take_str (String.length w) (w +:+ s) = w.
Proof.
  induction w as [|c w IH]; [destruct s; reflexivity|].
  rewrite app_cons. simpl. rewrite IH. reflexivity.
Qed.

Lemma consumed_app (w s : string) : Re.consumed (w +:+ s) s = w.
Proof.
  unfold Re.consumed. rewrite length_app_str.
  replace (String.length w + String.length s - String.length s)
    with (String.length w) by lia.
  apply take_str_app.
Qed.

(** ** The matcher against the language of the pattern *)

Lemma lit_spec (t s s' : string) : Re.lit t s = Some s' <-> s = t +:+ s'.
Proof.
  revert s. induction t as [|a t IH]; intros s; simpl.
  - rewrite app_nil_l. split; [intros [= ->] | intros ->]; reflexivity.
  - destruct s as [|b s].
    + rewrite app_cons. split; discriminate.
    + rewrite app_cons. destruct (Ascii.eqb_spec a b) as [->|N].
      * rewrite IH. split; [intros -> | intros [= ->]]; reflexivity.
      * split; [discriminate | intros [= <- _]; contradiction].
Qed.

Lemma within_dec (hi : option nat) (n : nat) :
  Re.within hi (S n) <-> Re.more hi = true /\ Re.within (Re.dec_hi hi) n.
Proof.
  destruct hi as [[|h]|]; simpl; split;
    try (intros [? _]; discriminate); try tauto; try lia.
Qed.

Section Rep.

Context {A : Type} (p : ascii -> bool) (k : string -> option A).

(** When the repetition fails, the rest of the pattern fails after
    every admissible number of repetitions. *)
Lemma rep_complete (s : string) : forall lo hi,
  Re.rep p lo hi s k = None ->
  forall w s', s = w +:+ s' -> Re.all_chars p w = true ->
    lo <= String.length w -> Re.within hi (String.length w) ->
    k s' = None.
Proof.
  induction s as [|c s IH]; intros lo hi H w s' E Hp Hlo Hhi.
  - destruct w; [|discriminate]. rewrite app_nil_l in E. subst s'.
    simpl in Hlo. assert (lo = 0) as -> by lia. exact H.
  - simpl in H. destruct w as [|d w].
    + rewrite app_nil_l in E. subst s'.
      simpl in Hlo. assert (lo = 0) as -> by lia.
      destruct (p c && Re.more hi); [|exact H].
      destruct (Re.rep p (pred 0) (Re.dec_hi hi) s k); [discriminate | exact H].
    + rewrite app_cons in E. injection E as <- ->.
      simpl in Hp. apply andb_true_iff in Hp as [Hc Hp].
      simpl in Hhi, Hlo. apply within_dec in Hhi as [Hm Hhi].
      rewrite Hc, Hm in H. simpl in H.
      destruct (Re.rep p (pred lo) (Re.dec_hi hi) (w +:+ s') k) eqn:R;
        [discriminate|].
      eapply IH; eauto. lia.
Qed.

(** When the repetition succeeds, it took a run of the class within
    the bounds after which the rest of the pattern succeeds, and the
    rest of the pattern fails after every longer admissible run. *)
Lemma rep_sound (s : string) : forall lo hi x,
  Re.rep p lo hi s k = Some x ->
  exists w s', s = w +:+ s' /\ Re.all_chars p w = true /\
    lo <= String.length w /\ Re.within hi (String.length w) /\
    k s' = Some x /\
    forall w2 s2, s = w2 +:+ s2 -> Re.all_chars p w2 = true ->
      Re.within hi (String.length w2) ->
      String.length w < String.length w2 -> k s2 = None.
Proof.
  induction s as [|c s IH]; intros lo hi x H.
  - simpl in H. destruct lo; [|discriminate].
    exists "", "". repeat split; simpl; try lia; try exact H.
    + destruct hi; simpl; [lia | exact I].
    + intros [|d w2] s2 E _ _ L; [simpl in L; lia | discriminate].
  - simpl in H.
    assert (Stop : (match lo with 0 => k (String c s) | S _ => None end) = Some x ->
                   (forall w2' s2, s = w2' +:+ s2 -> Re.all_chars p w2' = true ->
                      p c = true -> Re.within hi (S (String.length w2')) ->
                      k s2 = None) ->
      exists w s', String c s = w +:+ s' /\ Re.all_chars p w = true /\
        lo <= String.length w /\ Re.within hi (String.length w) /\
        k s' = Some x /\
        forall w2 s2, String c s = w2 +:+ s2 -> Re.all_chars p w2 = true ->
          Re.within hi (String.length w2) ->
          String.length w < String.length w2 -> k s2 = None).
    { intros Hs Hg. destruct lo; [|discriminate].
      exists "", (String c s). repeat split; simpl; try lia; try exact Hs.
      - destruct hi; simpl; [lia | exact I].
      - intros [|d w2] s2 E Hp Hhi L; [simpl in L; lia|].
        rewrite app_cons in E. injection E as <- ->.
        simpl in Hp. apply andb_true_iff in Hp as [Hc Hp].
        eapply Hg; eauto. }
    destruct (p c && Re.more hi) eqn:G.
    + apply andb_true_iff in G as [Hc Hm].
      destruct (Re.rep p (pred lo) (Re.dec_hi hi) s k) eqn:R.
      * injection H as ->.
        destruct (IH _ _ _ R) as (w & s' & -> & Hp & Hlo & Hhi & Hk & Hg).
        exists (String c w), s'. rewrite app_cons. simpl.
        rewrite Hc, Hp. repeat split; try lia; try assumption.
        -- apply within_dec. split; assumption.
        -- intros [|d w2] s2 E Hp2 Hhi2 L; [simpl in L; lia|].
           rewrite app_cons in E. injection E as <- E.
           simpl in Hp2. apply andb_true_iff in Hp2 as [_ Hp2].
           simpl in Hhi2. apply within_dec in Hhi2 as [_ Hhi2].
           simpl in L. eapply Hg; eauto. lia.
      * apply Stop; [exact H|].
        intros w2' s2 E Hp2 _ Hhi2. apply within_dec in Hhi2 as [_ Hhi2].
        eapply rep_complete; eauto.
        destruct lo; [simpl; lia | discriminate].
    + apply Stop; [exact H|].
      intros w2' s2 _ _ Hc Hhi2. apply within_dec in Hhi2 as [Hm _].
      rewrite Hc, Hm in G. discriminate.
Qed.

End Rep.

Section Exec.

Context {A : Type}.

(** A successful run of the matcher consumed a text of the language
    of the pattern, after which the rest of the pattern succeeded. *)
Lemma exec_sound (r : Re.regex) :
  forall s g (k : string -> Re.groups -> option A) x,
    Re.exec r s g k = Some x ->
    exists w s' g', s = w +:+ s' /\ Re.matches r w g g' /\ k s' g' = Some x.
Proof.
  induction r as [t | p lo hi | r1 IH1 r2 IH2 | n r IH];
    intros s g k x H; simpl in H.
  - destruct (Re.lit t s) as [s'|] eqn:L; [|discriminate].
    apply lit_spec in L. exists t, s', g. split; [exact L|].
    split; [constructor | exact H].
  - apply rep_sound in H as (w & s' & E & Hp & Hlo & Hhi & Hk & _).
    exists w, s', g. split; [exact E|]. split; [|exact Hk].
    constructor; assumption.
  - apply IH1 in H as (w1 & s1 & g1 & -> & M1 & H).
    apply IH2 in H as (w2 & s2 & g2 & -> & M2 & H).
    exists (w1 +:+ w2), s2, g2. rewrite app_assoc_str.
    split; [reflexivity|]. split; [|exact H].
    econstructor; eassumption.
  - apply IH in H as (w & s' & g' & -> & M & H).
    rewrite consumed_app in H.
    exists w, s', (<[n := w]> g'). split; [reflexivity|].
    split; [|exact H]. constructor. exact M.
Qed.

(** A failed run of the matcher: after every text of the language of
    the pattern at the head of the input, the rest of the pattern
    fails. *)
Lemma exec_complete (r : Re.regex) :
  forall s g (k : string -> Re.groups -> option A),
    Re.exec r s g k = None ->
    forall w s' g', s = w +:+ s' -> Re.matches r w g g' -> k s' g' = None.
Proof.
  induction r as [t | p lo hi | r1 IH1 r2 IH2 | n r IH];
    intros s g k H w s' g' E M; simpl in H; inversion M; subst.
  - match type of H with
    | context [Re.lit ?a ?b] =>
        assert (L : Re.lit a b = Some s') by (apply lit_spec; reflexivity);
        rewrite L in H
    end.
    exact H.
  - eapply (rep_complete p (fun s0 => k s0 g')); eauto.
  - rewrite app_assoc_str in H.
    match goal with
    | M1 : Re.matches r1 _ _ _, M2 : Re.matches r2 _ _ _ |- _ =>
        eapply IH2; [|reflexivity|exact M2];
        eapply (IH1 _ _ (fun s0 g0 => Re.exec r2 s0 g0 k));
          [exact H|reflexivity|exact M1]
    end.
  - match goal with
    | M1 : Re.matches r _ _ _ |- _ =>
        pose proof (IH _ _ _ H _ _ _ eq_refl M1) as C
    end.
    simpl in C. rewrite consumed_app in C. exact C.
Qed.

End Exec.

(** The anchored match: its group 0 is a text of the language at the head
    of the input. *)
Lemma match_at_sound (r : Re.regex) (s : string) (m : Re.groups) :
  Re.match_at r s = Some m ->
  exists w s' g, s = w +:+ s' /\ Re.matches r w ∅ g /\ m = <[0 := w]> g.
Proof.
  unfold Re.match_at. intros H.
  apply exec_sound in H as (w & s' & g & -> & M & H).
  rewrite consumed_app in H. injection H as <-.
  exists w, s', g. repeat split; assumption.
Qed.

Lemma match_at_complete (r : Re.regex) (s : string) :
  Re.match_at r s = None ->
  forall w s' g, s = w +:+ s' -> ~ Re.matches r w ∅ g.
Proof.
  unfold Re.match_at. intros H w s' g E M.
  pose proof (exec_complete r _ _ _ H w s' g E M) as C. discriminate.
Qed.

(** [search] returns the anchored match at the leftmost position that
    has one. *)
Lemma search_sound (r : Re.regex) (s : string) (m : Re.groups) :
  Re.search r s = Some m ->
  exists pre rest, s = pre +:+ rest /\ Re.match_at r rest = Some m /\
    forall pre2 rest2, s = pre2 +:+ rest2 ->
      String.length pre2 < String.length pre -> Re.match_at r rest2 = None.
Proof.
  induction s as [|c s IH]; simpl; intros H.
  - destruct (Re.match_at r "") eqn:M; [|discriminate].
    injection H as ->. exists "", "". repeat split; [exact M|].
    intros ? ? _ L. simpl in L. lia.
  - destruct (Re.match_at r (String c s)) eqn:M.
    + injection H as ->. exists "", (String c s). repeat split; [exact M|].
      intros ? ? _ L. simpl in L. lia.
    + destruct (IH H) as (pre & rest & -> & Hm & Hmin).
      exists (String c pre), rest. rewrite app_cons.
      repeat split; [exact Hm|].
      intros [|d pre2] rest2 E L.
      * rewrite app_nil_l in E. subst rest2. exact M.
      * rewrite app_cons in E. injection E as <- E. simpl in L.
        apply (Hmin pre2 rest2 E). lia.
Qed.

Lemma search_complete (r : Re.regex) (s : string) :
  Re.search r s = None ->
  forall pre rest, s = pre +:+ rest -> Re.match_at r rest = None.
Proof.
  induction s as [|c s IH]; simpl; intros H pre rest E.
  - destruct pre; [|discriminate]. rewrite app_nil_l in E. subst rest.
    destruct (Re.match_at r ""); [discriminate | reflexivity].
  - destruct (Re.match_at r (String c s)) eqn:M; [discriminate|].
    destruct pre as [|d pre].
    + rewrite app_nil_l in E. subst rest. exact M.
    + rewrite app_cons in E. injection E as <- E. eapply IH; eauto.
Qed.

(** ** [search] and the first match *)

Lemma search_none_no_match (r : Re.regex) (s : string) :
  Re.search r s = None -> no_match r s.
Proof.
  intros H i w (pre & post & E & _) [g M].
  pose proof (search_complete r s H pre (w +:+ post) E) as N.
  exact (match_at_complete r _ N w post g eq_refl M).
Qed.

(** What [search] finds is a substring in the language that starts
    where the first such substring starts. *)
Lemma search_some_leftmost (r : Re.regex) (s : string) (m : Re.groups) :
  Re.search r s = Some m ->
  exists pre rest w post g,
    s = pre +:+ rest /\ rest = w +:+ post /\ Re.match_at r rest = Some m /\
    Re.matches r w ∅ g /\ m = <[0 := w]> g /\
    forall j w2, occurs_at w2 j s -> Re.in_lang r w2 -> String.length pre <= j.
Proof.
  intros H. apply search_sound in H as (pre & rest & E & Hm & Hmin).
  destruct (match_at_sound r rest m Hm) as (w & post & g & E2 & M & Eg).
  exists pre, rest, w, post, g. repeat split; try assumption.
  intros j w2 (pre2 & post2 & E3 & L) [g2 M2].
  destruct (Nat.le_gt_cases (String.length pre) j) as [?|Lt]; [assumption|].
  exfalso. rewrite E3 in Hmin.
  assert (N : Re.match_at r (w2 +:+ post2) = None)
    by (apply (Hmin pre2); [reflexivity | lia]).
  exact (match_at_complete r _ N w2 post2 g2 eq_refl M2).
Qed.

Lemma group_insert (n : nat) (w : string) (g : Re.groups) :
  Re.group (<[n := w]> g) n = w.
Proof. unfold Re.group. rewrite lookup_insert_eq. reflexivity. Qed.

(** ** The identifier pattern *)

(** The texts of the language of the identifier pattern. *)
Lemma id_lang (w : string) (g g' : Re.groups) :
  Re.matches FIND_ID_REGEX w g g' ->
  exists a b, w = a +:+ "." +:+ b /\ g' = g /\
    Re.all_chars Re.is_digit a = true /\ String.length a = 4 /\
    Re.all_chars Re.is_digit b = true /\
    5 <= String.length b <= 6.
Proof.
  unfold FIND_ID_REGEX. intros M.
  inversion M as [| |? ? a w1 ? g1 ? Ma M1|]; subst; clear M.
  inversion M1 as [| |? ? d b ? g2 ? Md Mb|]; subst; clear M1.
  inversion Ma; subst. inversion Md; subst. inversion Mb; subst.
  simpl in *. exists a, b. repeat split; try assumption; lia.
Qed.


(** At a given start the matcher prefers the longer identifier. *)
Lemma id_longest (s : string) (m : Re.groups) :
  Re.match_at FIND_ID_REGEX s = Some m ->
  forall w2 s2, s = w2 +:+ s2 -> Re.in_lang FIND_ID_REGEX w2 ->
    String.length w2 <= String.length (Re.group m 0).
Proof.
  unfold Re.match_at, FIND_ID_REGEX. cbn [Re.exec]. intros H w2 s2 E [g2 M2].
  apply rep_sound in H as (a & s1 & Ea & Ha & La & La' & H & _).
  destruct (Re.lit "." s1) as [s3|] eqn:L; [|discriminate].
  apply lit_spec in L.
  apply rep_sound in H as (b & s4 & Eb & Hb & Lb & Lb' & H & Hg).
  injection H as <-. rewrite group_insert.
  apply id_lang in M2 as (a2 & b2 & -> & _ & Ha2 & La2 & Hb2 & Lb2).
  simpl in La'. subst s s1 s3.
  rewrite !app_assoc_str in E.
  destruct (app_inj_length _ _ _ _ E) as [<- E2]; [lia|].
  rewrite !app_cons, !app_nil_l in E2. injection E2 as E2.
  replace (a +:+ "." +:+ b +:+ s4) with ((a +:+ "." +:+ b) +:+ s4)
    by (rewrite !app_assoc_str; reflexivity).
  rewrite consumed_app, !length_app_str. simpl.
  destruct (Nat.le_gt_cases (String.length b2) (String.length b)) as [?|Lt];
    [lia|].
  specialize (Hg b2 s2 E2 Hb2). simpl in Hg.
  discriminate Hg; lia.
Qed.

(** ** [get_article_id] *)

(** The two outcomes of [get_article_id]. *)
Lemma get_article_id_cases (line : string) :
  match get_article_id line with
  | Ok w => first_match FIND_ID_REGEX line w
  | Raise e =>
      e = ValueError ("invalid input " +:+ line) /\
      no_match FIND_ID_REGEX line
  end.
Proof.
  unfold get_article_id.
  destruct (Re.search FIND_ID_REGEX line) as [m|] eqn:S.
  - destruct (search_some_leftmost _ _ _ S)
      as (pre & rest & w & post & g & E & E2 & Hm & M & -> & Hmin).
    rewrite group_insert.
    exists (String.length pre). split; [|split].
    + exists pre, post. subst. split; reflexivity.
    + exists g. exact M.
    + intros j w2 O2 L2. pose proof (Hmin j w2 O2 L2) as Hj.
      destruct (Nat.eq_dec (String.length pre) j) as [<-|N]; [|left; lia].
      right. split; [reflexivity|].
      destruct O2 as (pre2 & post2 & E3 & L3).
      rewrite E in E3.
      destruct (app_inj_length _ _ _ _ E3) as [_ E4]; [lia|].
      pose proof (id_longest rest _ Hm w2 post2 E4 L2) as Hl.
      rewrite group_insert in Hl. exact Hl.
  - split; [reflexivity|]. apply search_none_no_match. exact S.
Qed.



Example get_article_id_longer :
  get_article_id "1706.037621" = Ok "1706.037621".
Proof. reflexivity. Qed.

Example get_article_id_inside_digits :
  get_article_id "1234567.1234567" = Ok "4567.123456".
Proof. reflexivity. Qed.

(** ** [strip] *)

Lemma lstrip_spec (s : string) :
  exists l, s = l +:+ lstrip s /\ Re.all_chars isspace l = true /\
    starts_with_space (lstrip s) = false.
Proof.
  induction s as [|c s (l & E & Hl & Hs)].
  - exists "". repeat split.
  - simpl. destruct (isspace c) eqn:C.
    + exists (String c l). rewrite app_cons, <- E. simpl. rewrite C, Hl.
      repeat split. exact Hs.
    + exists "". simpl. rewrite C. repeat split.
Qed.

Lemma rstrip_spec (s : string) :
  exists r, s = rstrip s +:+ r /\ Re.all_chars isspace r = true /\
    ends_with_space (rstrip s) = false.
Proof.
  induction s as [|c s (r & E & Hr & Hs)].
  - exists "". repeat split.
  - simpl. destruct (rstrip s) as [|d t] eqn:R.
    + rewrite app_nil_l in E. subst r.
      destruct (isspace c) eqn:C.
      * exists (String c s). simpl. rewrite C, Hr. repeat split.
      * exists s. simpl. rewrite C. repeat split. exact Hr.
    + exists r. rewrite app_cons, <- E. repeat split; [exact Hr|].
      simpl. simpl in Hs. exact Hs.
Qed.

Lemma rstrip_starts (s : string) :
  starts_with_space s = false -> starts_with_space (rstrip s) = false.
Proof.
  destruct s as [|c s]; [reflexivity|]. simpl. intros C.
  destruct (rstrip s); [rewrite C|]; simpl; auto.
Qed.

(** [strip] removes the white space around a text and nothing else. *)
Lemma strip_trimmed (s : string) : trimmed s (strip s).
Proof.
  unfold strip.
  destruct (lstrip_spec s) as (l & E & Hl & Hs).
  destruct (rstrip_spec (lstrip s)) as (r & E2 & Hr & He).
  exists l, r. repeat split; try assumption.
  - rewrite <- E2. exact E.
  - apply rstrip_starts. exact Hs.
Qed.

(** ** The title pattern *)

(** A run of a class that ends at a character outside it ends there in
    one way only. *)
Lemma run_unique (p : ascii -> bool) (a a2 : string) (c c2 : ascii)
    (x y : string) :
  Re.all_chars p a = true -> Re.all_chars p a2 = true ->
  p c = false -> p c2 = false ->
  a +:+ String c x = a2 +:+ String c2 y -> a = a2 /\ c = c2 /\ x = y.
Proof.
  revert a2. induction a as [|d a IH]; intros [|d2 a2] Ha Ha2 Hc Hc2 E.
  - rewrite !app_nil_l in E. injection E as -> ->. repeat split.
  - rewrite app_nil_l, app_cons in E. injection E as -> _.
    simpl in Ha2. rewrite Hc in Ha2. discriminate.
  - rewrite app_nil_l, app_cons in E. injection E as -> _.
    simpl in Ha. rewrite Hc2 in Ha. discriminate.
  - rewrite !app_cons in E. injection E as -> E.
    simpl in Ha, Ha2.
    apply andb_true_iff in Ha as [_ Ha]. apply andb_true_iff in Ha2 as [_ Ha2].
    destruct (IH a2 Ha Ha2 Hc Hc2 E) as (-> & -> & ->). repeat split.
Qed.

(** The texts of the language of the title pattern, with the groups
    they set. *)
Lemma title_lang (w : string) (g : Re.groups) :
  Re.matches FIND_TITLE_REGEX w ∅ g ->
  exists a b t, w = title_element (a +:+ "." +:+ b) t /\
    Re.all_chars Re.is_digit a = true /\ Re.all_chars Re.is_digit b = true /\
    Re.all_chars Re.is_any t = true /\
    g = <[2 := t]> (<[1 := a +:+ "." +:+ b]> ∅).
Proof.
  unfold FIND_TITLE_REGEX. intros M.
  repeat match goal with
         | H : Re.matches (Re.Cat _ _) _ _ _ |- _ => inversion H; subst; clear H
         | H : Re.matches (Re.Grp _ _) _ _ _ |- _ => inversion H; subst; clear H
         | H : Re.matches (Re.Lit _) _ _ _ |- _ => inversion H; subst; clear H
         | H : Re.matches (Re.Rep _ _ _) _ _ _ |- _ => inversion H; subst; clear H
         end.
  eexists _, _, _. repeat split; eassumption.
Qed.

Lemma title_lang_intro (id t : string) :
  embedded_id id -> Re.all_chars Re.is_any t = true ->
  Re.in_lang FIND_TITLE_REGEX (title_element id t).
Proof.
  intros (a & b & -> & Ha & Hb) Ht.
  exists (<[2 := t]> (<[1 := a +:+ "." +:+ b]> ∅)).
  unfold FIND_TITLE_REGEX, title_element.
  apply (Re.M_Cat _ _ "<title>[" _ ∅ ∅); [apply Re.M_Lit|].
  apply (Re.M_Cat _ _ (a +:+ "." +:+ b) _ ∅ (<[1 := a +:+ "." +:+ b]> ∅)).
  - apply Re.M_Grp.
    apply (Re.M_Cat _ _ a _ ∅ ∅); [apply Re.M_Rep; simpl; auto; lia|].
    apply (Re.M_Cat _ _ "." b ∅ ∅); [apply Re.M_Lit|].
    apply Re.M_Rep; simpl; auto; lia.
  - apply (Re.M_Cat _ _ "]" _ _ (<[1 := a +:+ "." +:+ b]> ∅)); [apply Re.M_Lit|].
    apply (Re.M_Cat _ _ t "</title>" _ (<[2 := t]> (<[1 := a +:+ "." +:+ b]> ∅)));
      [|apply Re.M_Lit].
    apply Re.M_Grp. apply Re.M_Rep; simpl; auto; lia.
Qed.

Lemma lit_app (t s : string) : Re.lit t (t +:+ s) = Some s.
Proof. apply lit_spec. reflexivity. Qed.

(** What an anchored match of the title pattern returns: the groups of
    a title element at the head of the input, whose title text is the
    longest that a title element at the head of the input can have. *)
Lemma title_match_at (s : string) (m : Re.groups) :
  Re.match_at FIND_TITLE_REGEX s = Some m ->
  exists id t post,
    s = title_element id t +:+ post /\ embedded_id id /\
    Re.all_chars Re.is_any t = true /\
    Re.group m 0 = title_element id t /\
    Re.group m 1 = id /\ Re.group m 2 = t /\
    forall w2 s2, s = w2 +:+ s2 -> Re.in_lang FIND_TITLE_REGEX w2 ->
      String.length w2 <= String.length (title_element id t).
Proof.
  unfold Re.match_at, FIND_TITLE_REGEX. cbn [Re.exec]. intros H.
  destruct (Re.lit "<title>[" s) as [s1|] eqn:L1; [|discriminate].
  apply lit_spec in L1.
  apply rep_sound in H as (a & s2 & Ea & Ha & _ & _ & H & _).
  destruct (Re.lit "." s2) as [s3|] eqn:L2; [|discriminate].
  apply lit_spec in L2.
  apply rep_sound in H as (b & s4 & Eb & Hb & _ & _ & H & _).
  destruct (Re.lit "]" s4) as [s5|] eqn:L3; [|discriminate].
  apply lit_spec in L3.
  apply rep_sound in H as (t & s6 & Et & Ht & _ & _ & H & Hg).
  destruct (Re.lit "</title>" s6) as [s7|] eqn:L4; [|discriminate].
  apply lit_spec in L4. injection H as <-.
  assert (E1 : s1 = (a +:+ "." +:+ b) +:+ s4)
    by (subst; rewrite !app_assoc_str; reflexivity).
  assert (E0 : s = title_element (a +:+ "." +:+ b) t +:+ s7)
    by (unfold title_element; subst; rewrite !app_assoc_str; reflexivity).
  exists (a +:+ "." +:+ b), t, s7.
  split; [exact E0|]. split; [exists a, b; auto|]. split; [exact Ht|].
  split; [rewrite group_insert, E0, consumed_app; reflexivity|].
  split; [unfold Re.group; rewrite lookup_insert_ne, lookup_insert_ne,
            lookup_insert_eq by lia; simpl; rewrite E1; apply consumed_app|].
  split; [unfold Re.group; rewrite lookup_insert_ne, lookup_insert_eq by lia;
          simpl; rewrite Et; apply consumed_app|].
  intros w2 r2 E [g2 M2].
  apply title_lang in M2 as (a2 & b2 & t2 & -> & Ha2 & Hb2 & Ht2 & _).
  rewrite E0 in E. unfold title_element in E |- *.
  rewrite !app_assoc_str in E.
  destruct (app_inj_length _ _ _ _ E eq_refl) as [_ E2].
  change ("." +:+ ?x) with (String "." x) in E2.
  destruct (run_unique Re.is_digit a a2 "."%char "."%char _ _ Ha Ha2 eq_refl
              eq_refl E2) as (<- & _ & E3).
  change ("]" +:+ ?x) with (String "]" x) in E3.
  destruct (run_unique Re.is_digit b b2 "]"%char "]"%char _ _ Hb Hb2 eq_refl
              eq_refl E3) as (<- & _ & E4).
  rewrite !length_app_str.
  destruct (Nat.le_gt_cases (String.length t2) (String.length t)) as [?|Lt];
    [lia|].
  exfalso.
  assert (E5 : s5 = t2 +:+ "</title>" +:+ r2) by (subst; exact E4).
  specialize (Hg t2 ("</title>" +:+ r2) E5 Ht2 I Lt).
  rewrite lit_app in Hg. discriminate.
Qed.

(** ** The trace monad and the requests *)

Lemma bind_Ok {A B : Type} (t : list event) (a : A) (f : A -> io B) :
  bind (t, Ok a) f = (t ++ trace (f a), outcome (f a)).
Proof. unfold bind, trace, outcome. destruct (f a). reflexivity. Qed.

Lemma session_get_answer (srv : server) (url : string) :
  session_get srv url =
  ([Get url],
   match srv url with
   | Some resp => Ok resp
   | None => Raise ClientConnectionError
   end).
Proof. unfold session_get, emit. rewrite bind_Ok. destruct (srv url); reflexivity. Qed.

Lemma raise_for_status_success (resp : response) :
  success resp -> raise_for_status resp = ([], Ok tt).
Proof.
  unfold success, raise_for_status. intros H.
  destruct (400 <=? status resp) eqn:C; [apply Nat.leb_le in C; lia|].
  reflexivity.
Qed.

(** ** [get_pdf_name] *)

(** On an answer that passes [raise_for_status], [get_pdf_name] is one
    request and the search of the body. *)
Lemma get_pdf_name_success (srv : server) (aid : string) (resp : response) :
  srv (ARXIV_ABS_URL_BASE +:+ aid) = Some resp -> success resp ->
  get_pdf_name srv aid =
  ([Get (ARXIV_ABS_URL_BASE +:+ aid)],
   match Re.search FIND_TITLE_REGEX (text resp) with
   | Some m => Ok (Re.group m 1, strip (Re.group m 2))
   | None => Raise (AttributeError "'NoneType' object has no attribute 'group'")
   end).
Proof.
  intros Hs Hok. unfold get_pdf_name.
  rewrite session_get_answer, Hs, bind_Ok, (raise_for_status_success _ Hok),
    bind_Ok.
  destruct (Re.search FIND_TITLE_REGEX (text resp)); reflexivity.
Qed.

(** What the search of a body for the title pattern gives. *)
Lemma search_title_cases (xml : string) :
  match Re.search FIND_TITLE_REGEX xml with
  | Some m =>
      exists id title,
        embedded_id id /\ Re.all_chars Re.is_any title = true /\
        first_match FIND_TITLE_REGEX xml (title_element id title) /\
        Re.group m 1 = id /\ Re.group m 2 = title
  | None => no_match FIND_TITLE_REGEX xml
  end.
Proof.
  destruct (Re.search FIND_TITLE_REGEX xml) as [m|] eqn:S;
    [|apply search_none_no_match; exact S].
  destruct (search_some_leftmost _ _ _ S)
    as (pre & rest & w & post & g & E & E2 & Hm & M & Eg & Hmin).
  destruct (title_match_at rest m Hm)
    as (id & t & post' & E3 & Hid & Ht & G0 & G1 & G2 & Hlong).
  exists id, t. repeat split; try assumption.
  exists (String.length pre). split; [|split].
  - exists pre, post'. subst. split; [rewrite E3|]; reflexivity.
  - apply title_lang_intro; assumption.
  - intros j w2 O2 L2. pose proof (Hmin j w2 O2 L2) as Hj.
    destruct (Nat.eq_dec (String.length pre) j) as [<-|N]; [|left; lia].
    right. split; [reflexivity|].
    destruct O2 as (pre2 & post2 & E4 & L4). rewrite E in E4.
    destruct (app_inj_length _ _ _ _ E4) as [_ E5]; [lia|].
    exact (Hlong w2 post2 E5 L2).
Qed.

(** C6.  On a body that came with a success status, [get_pdf_name]
    returns the embedded identifier and the trimmed title text of the
    first title element of the form looked for, as two values; when the
    body has no such element it raises (the [AttributeError] of taking
    a group of no match). *)
Theorem get_pdf_name_first_title (srv : server) (aid : string)
    (resp : response) :
  srv (ARXIV_ABS_URL_BASE +:+ aid) = Some resp -> success resp ->
  (forall i w, occurs_at w i (text resp) -> Re.in_lang FIND_TITLE_REGEX w ->
     exists id title,
       embedded_id id /\ Re.all_chars Re.is_any title = true /\
       first_match FIND_TITLE_REGEX (text resp) (title_element id title) /\
       trimmed title (strip title) /\
       outcome (get_pdf_name srv aid) = Ok (id, strip title))
  /\ (no_match FIND_TITLE_REGEX (text resp) ->
      outcome (get_pdf_name srv aid)
      = Raise (AttributeError "'NoneType' object has no attribute 'group'")).
Proof.
  intros Hs Hok. rewrite (get_pdf_name_success srv aid resp Hs Hok).
  unfold outcome. cbn [snd].
  pose proof (search_title_cases (text resp)) as C.
  destruct (Re.search FIND_TITLE_REGEX (text resp)) as [m|].
  - destruct C as (id & title & Hid & Ht & F & G1 & G2). split.
    + intros _ _ _ _. exists id, title. rewrite G1, G2.
      repeat split; try assumption. apply strip_trimmed.
    + intros N. destruct F as (i & O & L & _). destruct (N i _ O L).
  - split.
    + intros i w O L. destruct (C i w O L).
    + intros _. reflexivity.
Qed.

Lemma get_pdf_name_first_title_witness :
  (exists id title,
     embedded_id id /\ Re.all_chars Re.is_any title = true /\
     first_match FIND_TITLE_REGEX
       "<title>[1706.03762] Attention Is All You Need</title>"
       (title_element id title) /\
     trimmed title (strip title) /\
     outcome (get_pdf_name attention_server "1706.03762")
     = Ok (id, strip title))
  /\ outcome (get_pdf_name untitled_server "1706.03762")
     = Raise (AttributeError "'NoneType' object has no attribute 'group'").
Proof.
  split.
  - apply (proj1 (get_pdf_name_first_title attention_server "1706.03762"
                    {| status := 200;
                       text := "<title>[1706.03762] Attention Is All You Need</title>";
                       body := [] |} eq_refl ltac:(unfold success; simpl; lia))
             0 (title_element "1706.03762" " Attention Is All You Need")).
    + exists "", "". split; reflexivity.
    + apply title_lang_intro; [|reflexivity].
      exists "1706", "03762". repeat split.
  - apply (proj2 (get_pdf_name_first_title untitled_server "1706.03762"
                    {| status := 200;
                       text := "<html><body>nothing here</body></html>";
                       body := [] |} eq_refl ltac:(unfold success; simpl; lia))).
    apply search_none_no_match. reflexivity.
Defined.

Example get_pdf_name_attention :
  get_pdf_name attention_server "1706.03762"
  = ([Get "https://arxiv.org/abs/1706.03762"],
     Ok ("1706.03762", "Attention Is All You Need")).
Proof. reflexivity. Qed.

(** With two title elements on one line the greedy title group runs to
    the last closing tag of the line; the match is still the first one,
    and the longest at its start. *)
Example get_pdf_name_two_on_a_line :
  outcome (get_pdf_name
             (mock_server "<title>[1.2]A</title><title>[3.4]B</title>" [])
             "1.2")
  = Ok ("1.2", "A</title><title>[3.4]B").
Proof. reflexivity. Qed.

(** ** [process_one_article] *)

Lemma get_pdf_name_trace (srv : server) (aid : string) :
  trace (get_pdf_name srv aid) = [Get (ARXIV_ABS_URL_BASE +:+ aid)].
Proof.
  unfold get_pdf_name. rewrite session_get_answer.
  destruct (srv _) as [resp|]; [|reflexivity].
  rewrite bind_Ok. unfold raise_for_status.
  destruct (400 <=? status resp); [reflexivity|].
  unfold ret at 1. rewrite bind_Ok.
  destruct (Re.search FIND_TITLE_REGEX (text resp)); reflexivity.
Qed.

Lemma get_pdf_file_trace (srv : server) (aid : string) :
  trace (get_pdf_file srv aid) = [Get (ARXIV_PDF_URL_BASE +:+ aid)].
Proof.
  unfold get_pdf_file. rewrite session_get_answer.
  destruct (srv _) as [resp|]; [|reflexivity].
  rewrite bind_Ok. unfold raise_for_status.
  destruct (400 <=? status resp); reflexivity.
Qed.

Lemma io_eta {A : Type} (m : io A) : m = (trace m, outcome m).
Proof. destruct m. reflexivity. Qed.

(** The steps of a pipeline run, one after the other. *)
Lemma process_one_article_steps (srv : server) (line : string) :
  process_one_article srv line =
  match get_article_id line with
  | Raise e => ([], Raise e)
  | Ok aid =>
      let started :=
        [Info ("processing article " +:+ aid);
         Get (ARXIV_ABS_URL_BASE +:+ aid)] in
      match outcome (get_pdf_name srv aid) with
      | Raise e => (started, Raise e)
      | Ok (parsed_aid, text_title) =>
          if String.eqb aid parsed_aid then
            (started ++ [Get (ARXIV_PDF_URL_BASE +:+ aid)],
             match outcome (get_pdf_file srv aid) with
             | Ok pdf_file => Ok (PyBytes pdf_file, PyStr text_title)
             | Raise e => Raise e
             end)
          else
            (started,
             Raise (AssertionError
                      ("id " +:+ aid +:+ " obtained from input does not match id "
                         +:+ parsed_aid +:+ " from server")))
      end
  end.
Proof.
  unfold process_one_article, lift.
  destruct (get_article_id line) as [aid|e]; [|reflexivity].
  rewrite bind_Ok. unfold emit. rewrite bind_Ok.
  rewrite (io_eta (get_pdf_name srv aid)), get_pdf_name_trace.
  destruct (outcome (get_pdf_name srv aid)) as [[parsed title]|e];
    [|reflexivity].
  rewrite bind_Ok. unfold assert. cbn [outcome snd].
  destruct (String.eqb aid parsed); [|reflexivity].
  unfold ret at 1. rewrite bind_Ok.
  rewrite (io_eta (get_pdf_file srv aid)), get_pdf_file_trace.
  destruct (outcome (get_pdf_file srv aid)); reflexivity.
Qed.

Lemma abs_url_not_pdf_url (a b : string) :
  ARXIV_ABS_URL_BASE +:+ a <> ARXIV_PDF_URL_BASE +:+ b.
Proof.
  unfold ARXIV_ABS_URL_BASE, ARXIV_PDF_URL_BASE. rewrite !app_cons.
  intros E. discriminate E.
Qed.

(** C1, as the code has it.  A pipeline run that succeeds returns the
    pair in the order (content, title): the bytes of the document first,
    the trimmed title second.  On the input 1706.03762, with the summary
    of that article and the fake document, the pair is the fake document
    and then the title. *)
Theorem process_one_article_returns_content_then_title :
  (forall (srv : server) (line : string) (r : pyval * pyval),
     outcome (process_one_article srv line) = Ok r ->
     exists aid title content,
       get_article_id line = Ok aid /\
       outcome (get_pdf_name srv aid) = Ok (aid, title) /\
       outcome (get_pdf_file srv aid) = Ok content /\
       r = (PyBytes content, PyStr title))
  /\ outcome (process_one_article attention_server "1706.03762")
     = Ok (PyBytes pdf_fake, PyStr "Attention Is All You Need").
Proof.
  split; [|reflexivity].
  intros srv line r. rewrite process_one_article_steps.
  destruct (get_article_id line) as [aid|e] eqn:Ea; [|discriminate].
  cbn zeta.
  destruct (outcome (get_pdf_name srv aid)) as [[parsed title]|e] eqn:En;
    [|discriminate].
  destruct (String.eqb_spec aid parsed) as [<-|N]; [|discriminate].
  unfold outcome at 1. cbn [snd].
  destruct (outcome (get_pdf_file srv aid)) as [content|e] eqn:Ef;
    [|discriminate].
  intros [= <-]. exists aid, title, content. repeat split; assumption.
Qed.

Lemma process_one_article_returns_content_then_title_witness :
  exists aid title content,
    get_article_id "1706.03762" = Ok aid /\
    outcome (get_pdf_name attention_server aid) = Ok (aid, title) /\
    outcome (get_pdf_file attention_server aid) = Ok content /\
    (PyBytes pdf_fake, PyStr "Attention Is All You Need")
    = (PyBytes content, PyStr title).
Proof.
  apply (proj1 process_one_article_returns_content_then_title
           attention_server "1706.03762"
           (PyBytes pdf_fake, PyStr "Attention Is All You Need")).
  reflexivity.
Defined.

(** C1, as the claim has it, fails on its own example: the pair is not
    the title and then the document. *)
Lemma process_one_article_not_title_then_content :
  outcome (process_one_article attention_server "1706.03762")
  <> Ok (PyStr "Attention Is All You Need", PyBytes pdf_fake).
Proof. vm_compute. discriminate. Qed.

Lemma no_content_fetch_before (aid : string) :
  ~ fetches_content [Info ("processing article " +:+ aid);
                     Get (ARXIV_ABS_URL_BASE +:+ aid)].
Proof.
  intros [x [H|[H|[]]]]; [discriminate H|].
  apply (abs_url_not_pdf_url aid x).
  exact (f_equal (fun ev => match ev with Get u => u | _ => "" end) H).
Qed.

(** C5.  When the identifier in the metadata answer is not the one
    extracted from the line, the run raises the [AssertionError] of the
    cross-check and its trace has no request for the document; and a
    run whose trace has a request for the document is one whose
    cross-check passed, the request coming after the one for the
    summary. *)
Theorem mismatch_stops_before_content_fetch (srv : server) (line : string) :
  (forall aid parsed title,
     get_article_id line = Ok aid ->
     outcome (get_pdf_name srv aid) = Ok (parsed, title) ->
     parsed <> aid ->
     outcome (process_one_article srv line)
     = Raise (AssertionError
                ("id " +:+ aid +:+ " obtained from input does not match id "
                   +:+ parsed +:+ " from server")) /\
     ~ fetches_content (trace (process_one_article srv line)))
  /\ (fetches_content (trace (process_one_article srv line)) ->
      exists aid title,
        get_article_id line = Ok aid /\
        outcome (get_pdf_name srv aid) = Ok (aid, title) /\
        trace (process_one_article srv line)
        = [Info ("processing article " +:+ aid);
           Get (ARXIV_ABS_URL_BASE +:+ aid);
           Get (ARXIV_PDF_URL_BASE +:+ aid)]).
Proof.
  rewrite process_one_article_steps. split.
  - intros aid parsed title -> -> N. cbn zeta.
    destruct (String.eqb_spec aid parsed) as [E|_]; [congruence|].
    split; [reflexivity|]. apply no_content_fetch_before.
  - destruct (get_article_id line) as [aid|e] eqn:Ea.
    + cbn zeta.
      destruct (outcome (get_pdf_name srv aid)) as [[parsed title]|e] eqn:En.
      * destruct (String.eqb_spec aid parsed) as [<-|N].
        -- intros _. exists aid, title. repeat split; assumption.
        -- intros F. destruct (no_content_fetch_before aid F).
      * intros F. destruct (no_content_fetch_before aid F).
    + intros [x []].
Qed.

Lemma mismatch_stops_before_content_fetch_witness :
  (outcome (process_one_article mismatch_server "1706.03762")
   = Raise (AssertionError
              ("id " +:+ "1706.03762"
                 +:+ " obtained from input does not match id "
                 +:+ "1706.99999" +:+ " from server")) /\
   ~ fetches_content (trace (process_one_article mismatch_server "1706.03762")))
  /\ exists aid title,
       get_article_id "1706.03762" = Ok aid /\
       outcome (get_pdf_name attention_server aid) = Ok (aid, title) /\
       trace (process_one_article attention_server "1706.03762")
       = [Info ("processing article " +:+ aid);
          Get (ARXIV_ABS_URL_BASE +:+ aid);
          Get (ARXIV_PDF_URL_BASE +:+ aid)].
Proof.
  split.
  - apply (proj1 (mismatch_stops_before_content_fetch mismatch_server
                    "1706.03762")
             "1706.03762" "1706.99999" "Attention Is All You Need");
      [reflexivity | reflexivity | discriminate].
  - apply (proj2 (mismatch_stops_before_content_fetch attention_server
                    "1706.03762")).
    exists "1706.03762". vm_compute. right. right. left. reflexivity.
Defined.

Example mismatch_run :
  process_one_article mismatch_server "1706.03762"
  = ([Info "processing article 1706.03762";
      Get "https://arxiv.org/abs/1706.03762"],
     Raise (AssertionError
              "id 1706.03762 obtained from input does not match id 1706.99999 from server")).
Proof. reflexivity. Qed.

(** ** The coordinator *)

Section CoordinatorFacts.

Context {W : Type}.
Implicit Types (f : callback W) (w : W).

(** What [as_completed] yields are outcomes of the tasks. *)
Lemma as_completed_In {A : Type} (tasks : list A) (order : list nat) (x : A) :
  In x (as_completed tasks order) -> In x tasks.
Proof.
  unfold as_completed. intros H. apply list_elem_of_In in H.
  apply list_elem_of_omap in H as (j & _ & Hj).
  apply list_elem_of_In. eapply list_elem_of_lookup_2. exact Hj.
Qed.

Lemma as_completed_length {A : Type} (tasks : list A) (order : list nat) :
  Forall (fun j => j < length tasks) order ->
  length (as_completed tasks order) = length order.
Proof.
  unfold as_completed. induction 1 as [|j order Hj _ IH]; [reflexivity|].
  change (omap (fun j => tasks !! j) (j :: order))
    with (match tasks !! j with
          | Some y => y :: omap (fun j => tasks !! j) order
          | None => omap (fun j => tasks !! j) order
          end).
  destruct (lookup_lt_is_Some_2 tasks j Hj) as [x ->].
  cbn [length]. rewrite IH. reflexivity.
Qed.

(** The callback is invoked with the two halves of one result. *)
Lemma consume_calls article_list (postproc_fn : option (callback W)) :
  forall completed aidx w title content,
    In (Call title content)
       (main_trace (consume article_list postproc_fn aidx completed w)) ->
    In (Ok (content, title)) completed.
Proof.
  induction completed as [|[[pdf_file ti]|e] rest IH];
    intros aidx w title content; cbn [consume]; try (intros []).
  destruct (article_list !! aidx) as [line|]; [|intros []].
  destruct postproc_fn as [f|].
  - destruct (f ti pdf_file w) as [[u|e] w1] eqn:F.
    + specialize (IH (S aidx) w1 title content).
      destruct (consume article_list (Some f) (S aidx) rest w1) as [[t r] w'].
      unfold main_trace in *. cbn [fst] in *.
      intros [H|[H|[H|H]]]; try discriminate H.
      * injection H as -> ->. left. reflexivity.
      * right. apply IH. exact H.
    + unfold main_trace. cbn [fst].
      intros [H|[H|[]]]; try discriminate H.
      injection H as -> ->. left. reflexivity.
  - specialize (IH (S aidx) w title content).
    destruct (consume article_list None (S aidx) rest w) as [[t r] w'].
    unfold main_trace in *. cbn [fst] in *.
    intros [H|H]; [discriminate H|]. right. apply IH. exact H.
Qed.

(** On the results of runs that all succeeded, with lines for all of
    them and every invocation of the callback returning, the loop runs
    to its end: one awaited invocation for each result, in their order,
    and the state is the one the invocations leave. *)
Lemma consume_returning article_list f :
  forall results aidx w w',
    aidx + length results <= length article_list ->
    invoke_all f results w = Some w' ->
    let run := consume article_list (Some f) aidx (map Ok results) w in
    main_outcome run = Ok tt /\
    main_state run = w' /\
    calls (main_trace run) = map (fun r => (r.2, r.1)) results /\
    awaited (main_trace run).
Proof.
  induction results as [|[pdf_file title] rest IH]; intros aidx w w' Hlen Hf.
  - injection Hf as <-. repeat split.
  - cbn [consume length map invoke_all] in *.
    destruct (lookup_lt_is_Some_2 article_list aidx) as [line ->]; [lia|].
    destruct (f title pdf_file w) as [[[]|e] w1]; [|discriminate Hf].
    specialize (IH (S aidx) w1 w' ltac:(lia) Hf). cbn zeta in IH.
    destruct (consume article_list (Some f) (S aidx) (map Ok rest) w1)
      as [[t r] w2].
    unfold main_outcome, main_trace, main_state in *. cbn [fst snd] in *.
    destruct IH as (Hr & Hw & Hc & Ha).
    split; [exact Hr|]. split; [exact Hw|]. split; [|repeat split; exact Ha].
    change (calls (InfoGot line title :: Call title pdf_file
                     :: Done title pdf_file :: t))
      with ((title, pdf_file) :: calls t).
    rewrite Hc. reflexivity.
Qed.

(** Outcomes that are all successes are those of their results. *)
Lemma successes_all {A : Type} (completed : list (result A)) :
  Forall (fun r => exists x, r = Ok x) completed ->
  completed = map Ok (successes completed).
Proof.
  induction 1 as [|r rest [x ->] _ IH]; [reflexivity|].
  change (Ok x :: rest = Ok x :: map Ok (successes rest)).
  f_equal. exact IH.
Qed.

End CoordinatorFacts.

(** The [k]-th record of the coordinator's log pairs the [k]-th line of
    the input with the title of the [k]-th run to complete. *)
Lemma consume_logged {W : Type} (article_list : list string)
    (postproc_fn : option (callback W)) :
  forall completed aidx w k line title,
    logged (main_trace (consume article_list postproc_fn aidx completed w)) !! k
    = Some (line, title) ->
    article_list !! (aidx + k) = Some line /\
    exists content, completed !! k = Some (Ok (content, title)).
Proof.
  induction completed as [|[[pdf_file ti]|e] rest IH];
    intros aidx w k line title; cbn [consume]; try discriminate.
  destruct (article_list !! aidx) as [l0|] eqn:L; [|discriminate].
  assert (Step : forall t,
    (forall k', logged t !! k' = Some (line, title) ->
       article_list !! (S aidx + k') = Some line /\
       exists content, rest !! k' = Some (Ok (content, title))) ->
    ((l0, ti) :: logged t) !! k = Some (line, title) ->
    article_list !! (aidx + k) = Some line /\
    exists content,
      (Ok (pdf_file, ti) :: rest) !! k = Some (Ok (content, title))).
  { intros t Ht. destruct k as [|k]; cbn [lookup list_lookup].
    - intros [= <- <-]. rewrite Nat.add_0_r. split; [exact L|].
      exists pdf_file. reflexivity.
    - intros H. apply Ht in H as [H1 H2].
      replace (aidx + S k) with (S aidx + k) by lia. split; assumption. }
  destruct postproc_fn as [f|].
  - destruct (f ti pdf_file w) as [[u|e] w1].
    + specialize (IH (S aidx) w1).
      destruct (consume article_list (Some f) (S aidx) rest w1) as [[t r] w'].
      unfold main_trace in *. cbn [fst] in *.
      apply (Step t). intros k'. apply IH.
    + unfold main_trace. cbn [fst].
      apply (Step []). intros k'. discriminate.
  - specialize (IH (S aidx) w).
    destruct (consume article_list None (S aidx) rest w) as [[t r] w'].
    unfold main_trace in *. cbn [fst] in *.
    apply (Step t). intros k'. apply IH.
Qed.

(** C2, on a batch of two lines of which the second completes first.
    The coordinator logs the first line with the title of the second
    article and the second line with the title of the first: the line
    of a record is the one at the rank of completion, not the one the
    run was launched from. *)
Theorem main_logs_line_of_completion_rank :
  logged (main_trace (main two_server [1; 0] ["1706.03762"; "1810.04805"]
                        (Some counting) 0))
  = [("1706.03762", PyStr "BERT");
     ("1810.04805", PyStr "Attention Is All You Need")]
  /\ outcome (process_one_article two_server "1706.03762")
     = Ok (PyBytes pdf_fake, PyStr "Attention Is All You Need")
  /\ outcome (process_one_article two_server "1810.04805")
     = Ok (PyBytes [], PyStr "BERT").
Proof. vm_compute. repeat split. Qed.

Lemma successes_completed (srv : server) (article_list : list string)
    (order : list nat) :
  (forall line, In line article_list ->
     exists r, outcome (process_one_article srv line) = Ok r) ->
  Forall (fun r => exists x, r = Ok x)
    (as_completed (map outcome (map (process_one_article srv) article_list))
       order).
Proof.
  intros H. apply Forall_forall. intros r Hr. apply list_elem_of_In in Hr.
  apply as_completed_In in Hr. apply in_map_iff in Hr as (m & <- & Hm).
  apply in_map_iff in Hm as (line & <- & Hl). exact (H line Hl).
Qed.

Lemma order_in_range (order : list nat) (n : nat) :
  Permutation order (seq 0 n) -> Forall (fun j => j < n) order.
Proof.
  intros P. apply Forall_forall. intros j Hj. apply list_elem_of_In in Hj.
  apply (Permutation_in _ P), in_seq in Hj. lia.
Qed.

(** C7, as the claim has it, fails: every run of the batch succeeds,
    and [main] invokes the callback once, not once for each of the two
    lines, because that invocation raises and the error ends the
    batch. *)
Lemma main_stops_at_raising_callback :
  (forall line, In line ["1706.03762"; "1810.04805"] ->
     exists r, outcome (process_one_article two_server line) = Ok r) /\
  main_outcome (main two_server [1; 0] ["1706.03762"; "1810.04805"]
                  (Some refusing) 0) = Raise (RuntimeError "no room") /\
  length (calls (main_trace (main two_server [1; 0]
                               ["1706.03762"; "1810.04805"]
                               (Some refusing) 0)))
  <> length ["1706.03762"; "1810.04805"].
Proof.
  split; [|split].
  - intros line [<-|[<-|[]]]; eexists; vm_compute; reflexivity.
  - vm_compute. reflexivity.
  - vm_compute. discriminate.
Qed.

(** C7, as the code has it.  On a batch in which every pipeline run
    succeeds and every invocation of the callback returns, whatever the
    order of completion, [main] returns after invoking the callback
    once for each line: the invocations are those of the results of the
    runs, in the order of completion, each with the title first, and
    the state is the one these invocations leave, one after the other.
    Every invocation has returned before the next article is taken up:
    the trace is a run of blocks (log, invocation, return). *)
Theorem main_invokes_returning_callback_once_per_line {W : Type}
    (srv : server) (order : list nat) (article_list : list string)
    (f : callback W) (w w' : W) :
  Permutation order (seq 0 (length article_list)) ->
  (forall line, In line article_list ->
     exists r, outcome (process_one_article srv line) = Ok r) ->
  invoke_all f
    (successes (as_completed
                  (map outcome (map (process_one_article srv) article_list))
                  order)) w = Some w' ->
  main_outcome (main srv order article_list (Some f) w) = Ok tt /\
  length (calls (main_trace (main srv order article_list (Some f) w)))
  = length article_list /\
  calls (main_trace (main srv order article_list (Some f) w))
  = map (fun r => (r.2, r.1))
      (successes (as_completed
                    (map outcome (map (process_one_article srv) article_list))
                    order)) /\
  main_state (main srv order article_list (Some f) w) = w' /\
  awaited (main_trace (main srv order article_list (Some f) w)).
Proof.
  intros P Hok Hf. unfold main.
  assert (Hlen : length (as_completed
                           (map outcome (map (process_one_article srv) article_list))
                           order) = length article_list).
  { rewrite as_completed_length.
    - rewrite (Permutation_length P). apply length_seq.
    - rewrite !length_map. apply order_in_range. exact P. }
  pose proof (successes_all _ (successes_completed srv article_list order Hok))
    as E.
  set (completed := as_completed
                      (map outcome (map (process_one_article srv) article_list))
                      order) in *.
  assert (L : length (successes completed) = length article_list).
  { rewrite <- Hlen. rewrite E at 2. rewrite length_map. reflexivity. }
  pose proof (consume_returning article_list f (successes completed) 0 w w'
                ltac:(simpl; lia) Hf) as C.
  cbn zeta in C. rewrite <- E in C. destruct C as (Hr & Hw & Hc & Ha).
  split; [exact Hr|]. split; [rewrite Hc, length_map; exact L|].
  split; [exact Hc|]. split; [exact Hw | exact Ha].
Qed.

Lemma main_invokes_returning_callback_once_per_line_witness :
  main_outcome (main two_server [1; 0] ["1706.03762"; "1810.04805"]
                  (Some counting) 0) = Ok tt /\
  length (calls (main_trace (main two_server [1; 0]
                               ["1706.03762"; "1810.04805"]
                               (Some counting) 0)))
  = length ["1706.03762"; "1810.04805"] /\
  calls (main_trace (main two_server [1; 0] ["1706.03762"; "1810.04805"]
                       (Some counting) 0))
  = map (fun r => (r.2, r.1))
      (successes (as_completed
                    (map outcome (map (process_one_article two_server)
                                    ["1706.03762"; "1810.04805"]))
                    [1; 0])) /\
  main_state (main two_server [1; 0] ["1706.03762"; "1810.04805"]
                (Some counting) 0) = 2 /\
  awaited (main_trace (main two_server [1; 0] ["1706.03762"; "1810.04805"]
                         (Some counting) 0)).
Proof.
  apply (main_invokes_returning_callback_once_per_line two_server [1; 0]
           ["1706.03762"; "1810.04805"] counting 0 2).
  - simpl. apply perm_swap.
  - intros line [<-|[<-|[]]]; eexists; vm_compute; reflexivity.
  - vm_compute. reflexivity.
Defined.

(** The callback of the script returns from every invocation on this
    batch, saving to a directory that is there. *)
Example postprocess_fn_returns_on_the_batch :
  is_Some (invoke_all (postprocess_fn (Some (Some "/tmp")) None)
             (successes (as_completed
                           (map outcome (map (process_one_article two_server)
                                           ["1706.03762"; "1810.04805"]))
                           [1; 0]))
             (start tmp_fs)).
Proof. vm_compute. eexists. reflexivity. Qed.

Example counting_counts :
  main_state (main two_server [1; 0] ["1706.03762"; "1810.04805"]
                (Some counting) 0) = 2.
Proof. vm_compute. reflexivity. Qed.

(** C9.  Whenever the callback is invoked, its title and its content
    are the two halves of the pair that one call of
    [process_one_article], on one line of the batch, returned. *)
Theorem callback_gets_the_pair_of_one_run {W : Type} (srv : server)
    (order : list nat) (article_list : list string)
    (postproc_fn : option (callback W)) (w : W) (title content : pyval) :
  In (Call title content)
     (main_trace (main srv order article_list postproc_fn w)) ->
  exists line,
    In line article_list /\
    outcome (process_one_article srv line) = Ok (content, title).
Proof.
  unfold main. intros H. apply consume_calls, as_completed_In in H.
  apply in_map_iff in H as (m & E & Hm).
  apply in_map_iff in Hm as (line & <- & Hl).
  exists line. split; assumption.
Qed.

Lemma callback_gets_the_pair_of_one_run_witness :
  exists line,
    In line ["1706.03762"; "1810.04805"] /\
    outcome (process_one_article two_server line)
    = Ok (PyBytes [], PyStr "BERT").
Proof.
  apply (callback_gets_the_pair_of_one_run two_server [1; 0]
           ["1706.03762"; "1810.04805"] (Some counting) 0
           (PyStr "BERT") (PyBytes [])).
  vm_compute. right. left. reflexivity.
Defined.

(** ** [split] and [generate_article_list] *)

(** Joining the tokens of a split with the separator gives the text
    back. *)
Lemma join_cons (sep x y : string) (l : list string) :
  join sep (x :: y :: l) = x +:+ sep +:+ join sep (y :: l).
Proof. reflexivity. Qed.

Lemma join_split (sep : ascii) (s : string) :
  join (String sep "") (split sep s) = s.
Proof.
  unfold split. induction s as [|c s IH]; [reflexivity|].
  cbn [split_go]. destruct (split_go sep s) as [tok toks].
  destruct (Ascii.eqb_spec c sep) as [->|N].
  - rewrite join_cons, IH. reflexivity.
  - destruct toks as [|t ts].
    + cbn [join] in *. rewrite IH. reflexivity.
    + rewrite join_cons in *. rewrite app_cons, IH. reflexivity.
Qed.

Lemma split_length (sep : ascii) (s : string) : 1 <= length (split sep s).
Proof. unfold split. destruct (split_go sep s). simpl. lia. Qed.

(** What [generate_article_list] returns was not read from a file: it
    is the stripped tokens of the argument. *)
Lemma generate_article_list_returns_tokens (fsys : filesystem)
    (input_str : option string) (l : list string) :
  generate_article_list fsys input_str = Ok l ->
  l = map strip (split ","%char (default "" input_str)).
Proof.
  unfold generate_article_list.
  destruct (negb (truthy input_str)); [discriminate|].
  destruct (length _ =? 0); [discriminate|].
  destruct (_ && _); [discriminate|].
  intros [= <-]. reflexivity.
Qed.

(** C3, on a file of two identifiers.  The argument is the path of a
    file that is there, and the call raises the [TypeError] of opening a
    list: no line of the file is returned. *)
Theorem generate_article_list_of_a_file_raises :
  isfile ids_fs "ids.txt" = true /\
  generate_article_list ids_fs (Some "ids.txt")
  = Raise (TypeError "expected str, bytes or os.PathLike object, not list").
Proof. vm_compute. split; reflexivity. Qed.

(** C10.  Splitting a text on commas gives at least one token, and
    [generate_article_list] never raises the [ValueError] of the branch
    that tests for no token. *)
Theorem generate_article_list_empty_branch_unreachable :
  (forall input_str : string,
     1 <= length (map strip (split ","%char input_str))) /\
  (forall (fsys : filesystem) (input_str : option string),
     generate_article_list fsys input_str
     <> Raise (ValueError "--input invalid; got []")).
Proof.
  split.
  - intros s. rewrite length_map. apply split_length.
  - intros fsys input_str. unfold generate_article_list.
    destruct (negb (truthy input_str)); [discriminate|].
    pose proof (split_length ","%char (default "" input_str)) as L.
    rewrite <- (length_map strip) in L.
    destruct (length _ =? 0) eqn:Z; [apply Nat.eqb_eq in Z; lia|].
    destruct (_ && _); discriminate.
Qed.

(** ** The temporary directory *)

Lemma lookup_fs (fsys : filesystem) (p : string) :
  fsys !! p = match stat fsys p with Ok n => Some n | Raise _ => None end.
Proof. reflexivity. Qed.

(** A path names a directory when it is not empty and a directory is
    at its place. *)
Lemma lookup_fs_Dir (fsys : filesystem) (d : string) :
  fsys !! d = Some Dir <->
  d <> "" /\ node_at fsys (abspath fsys d) = Some Dir.
Proof.
  rewrite lookup_fs. unfold stat.
  destruct (String.eqb_spec d "") as [->|N].
  - split; [discriminate | intros [H _]; contradiction].
  - destruct (node_at fsys (abspath fsys d)) as [[|c]|].
    + split; auto.
    + split; [destruct (ends_as_dir d); discriminate|].
      intros [_ H]. discriminate H.
    + split; [discriminate | intros [_ H]; discriminate H].
Qed.

Lemma lookup_fs_None (fsys : filesystem) (p : string) :
  node_at fsys (abspath fsys p) = None -> fsys !! p = None.
Proof.
  intros H. rewrite lookup_fs. unfold stat. rewrite H.
  destruct (String.eqb p ""); reflexivity.
Qed.

(** The place of a path depends on the working directory only. *)
Lemma abspath_cwd (fsys fsys' : filesystem) (p : string) :
  cwd fsys' = cwd fsys -> abspath fsys' p = abspath fsys p.
Proof. unfold abspath. intros ->. reflexivity. Qed.

Lemma is_prefix_refl (k : list string) : is_prefix k k = true.
Proof.
  induction k as [|a k IH]; [reflexivity|].
  cbn [is_prefix]. rewrite String.eqb_refl. exact IH.
Qed.

Lemma is_prefix_trans (k l m : list string) :
  is_prefix k l = true -> is_prefix l m = true -> is_prefix k m = true.
Proof.
  revert l m. induction k as [|a k IH]; intros l m; [reflexivity|].
  destruct l as [|b l]; [discriminate|].
  destruct m as [|c m]; [discriminate|].
  cbn [is_prefix]. rewrite !andb_true_iff.
  intros [Hab Hkl] [Hbc Hlm]. apply String.eqb_eq in Hab, Hbc. subst.
  rewrite String.eqb_refl. split; [reflexivity|]. exact (IH l m Hkl Hlm).
Qed.

(** Storing at the place of [p] changes what is at that place only. *)
Lemma node_at_insert_ne (fsys : filesystem) (p : string) (n : node)
    (k : list string) :
  k <> abspath fsys p -> node_at (<[p := n]> fsys) k = node_at fsys k.
Proof.
  intros N. unfold node_at, insert, filesystem_insert. cbn [cwd tree].
  destruct (is_prefix k (cwd fsys)); [reflexivity|].
  apply lookup_insert_ne. congruence.
Qed.

Lemma node_at_insert_eq (fsys : filesystem) (p : string) (n : node) :
  node_at fsys (abspath fsys p) <> Some Dir ->
  node_at (<[p := n]> fsys) (abspath fsys p) = Some n.
Proof.
  unfold node_at, insert, filesystem_insert. cbn [cwd tree].
  destruct (is_prefix (abspath fsys p) (cwd fsys)); [congruence|].
  intros _. apply lookup_insert_eq.
Qed.

Lemma node_at_insert_Dir (fsys : filesystem) (p : string) :
  node_at (<[p := Dir]> fsys) (abspath fsys p) = Some Dir.
Proof.
  unfold node_at, insert, filesystem_insert. cbn [cwd tree].
  destruct (is_prefix (abspath fsys p) (cwd fsys)); [reflexivity|].
  apply lookup_insert_eq.
Qed.

Lemma lookup_fs_insert_ne (fsys : filesystem) (p q : string) (n : node) :
  abspath fsys q <> abspath fsys p -> (<[p := n]> fsys) !! q = fsys !! q.
Proof.
  intros N. rewrite !lookup_fs. unfold stat.
  change (abspath (<[p := n]> fsys) q) with (abspath fsys q).
  rewrite (node_at_insert_ne fsys p n _ N). reflexivity.
Qed.

Lemma lookup_fs_insert_Dir (fsys : filesystem) (d : string) :
  d <> "" -> (<[d := Dir]> fsys) !! d = Some Dir.
Proof.
  intros N. apply lookup_fs_Dir. split; [exact N|].
  change (abspath (<[d := Dir]> fsys) d) with (abspath fsys d).
  apply node_at_insert_Dir.
Qed.

Lemma insert_fs_twice (fsys : filesystem) (p : string) (n n' : node) :
  <[p := n']> (<[p := n]> fsys) = <[p := n']> fsys.
Proof.
  change (<[p := n']> (<[p := n]> fsys))
    with {| cwd := cwd fsys;
            tree := <[abspath fsys p := n']>
                      (<[abspath fsys p := n]> (tree fsys)) |}.
  rewrite insert_insert_eq. reflexivity.
Qed.

(** What a successful opening for writing has found and done. *)
Lemma open_wb_Ok (p : string) (fsys fsys' : filesystem) :
  open_wb p fsys = Ok fsys' ->
  fsys' = <[p := File []]> fsys /\ p <> "" /\ ends_as_dir p = false /\
  node_at fsys (abspath fsys p) <> Some Dir.
Proof.
  unfold open_wb. destruct (String.eqb_spec p "") as [->|N]; [discriminate|].
  cbn zeta. intros H.
  assert (D : node_at fsys (abspath fsys p) <> Some Dir).
  { intros E. rewrite E in H. discriminate H. }
  assert (H' : match node_at fsys (removelast (abspath fsys p)) with
               | Some Dir =>
                   if ends_as_dir p then Raise (IsADirectoryError p)
                   else Ok (<[p := File []]> fsys)
               | Some (File _) => Raise (NotADirectoryError p)
               | None => Raise (FileNotFoundError p)
               end = Ok fsys').
  { destruct (node_at fsys (abspath fsys p)) as [[|c]|];
      [contradiction | exact H | exact H]. }
  clear H.
  destruct (node_at fsys (removelast (abspath fsys p))) as [[|c]|];
    try discriminate.
  destruct (ends_as_dir p); [discriminate|].
  injection H' as <-. auto.
Qed.

(** Opening a file for writing leaves the directories that are there. *)
Lemma open_wb_keeps_dir (p d : string) (fsys fsys' : filesystem) :
  open_wb p fsys = Ok fsys' -> fsys !! d = Some Dir -> fsys' !! d = Some Dir.
Proof.
  intros H Hd. apply open_wb_Ok in H as (-> & _ & _ & D).
  rewrite lookup_fs_insert_ne; [exact Hd|].
  intros E. apply lookup_fs_Dir in Hd as [_ Hd]. rewrite E in Hd.
  contradiction.
Qed.

(** What a call of [save_file_fn] that returns has done. *)
Lemma save_file_fn_Ok (save_dir : option string)
    (filename : string) (bin_content : pyval) (w w' : world) (p : string) :
  save_file_fn save_dir filename bin_content w = (Ok p, w') ->
  exists d b,
    save_dir = Some d /\ bin_content = PyBytes b /\
    p = path_join d filename /\
    fs w' !! p = Some (File b) /\
    (forall q, abspath (fs w) q <> abspath (fs w) p ->
               fs w' !! q = fs w !! q) /\
    cwd (fs w') = cwd (fs w) /\
    temp_dir w' = temp_dir w /\ jobs w' = jobs w.
Proof.
  unfold save_file_fn. destruct save_dir as [d|]; [|discriminate].
  cbn zeta. destruct (open_wb _ _) as [f|e] eqn:O; [|discriminate].
  apply open_wb_Ok in O as (-> & N & A & D).
  destruct bin_content as [s|b]; [discriminate|].
  intros [= <- <-]. exists d, b. cbn [fs say set_fs temp_dir jobs] in *.
  rewrite insert_fs_twice.
  repeat split.
  - rewrite lookup_fs. unfold stat.
    destruct (String.eqb_spec (path_join d filename) ""); [contradiction|].
    change (abspath (<[path_join d filename := File b]> (fs w))
              (path_join d filename))
      with (abspath (fs w) (path_join d filename)).
    rewrite (node_at_insert_eq _ _ _ D), A. reflexivity.
  - intros q Nq. apply lookup_fs_insert_ne. exact Nq.
Qed.

Section KeepsTempDir.

Variable d : string.
Variable c : list string.

Lemma save_file_fn_holds save_dir filename bin_content w :
  holds d w /\ cwd (fs w) = c ->
  holds d (save_file_fn save_dir filename bin_content w).2 /\
  cwd (fs (save_file_fn save_dir filename bin_content w).2) = c.
Proof.
  unfold save_file_fn. intros [[Ht Hd] Hc].
  destruct save_dir as [dir|]; [|repeat split; assumption].
  cbn zeta.
  destruct (open_wb _ _) as [f|e] eqn:O; [|repeat split; assumption].
  pose proof (open_wb_keeps_dir _ d _ _ O Hd) as Hf.
  apply open_wb_Ok in O as (-> & N & A & D).
  cbn [fs say] in *.
  destruct bin_content as [s|b]; cbn [snd fs say set_fs].
  - split; [split; [exact Ht | exact Hf] | exact Hc].
  - split; [split; [exact Ht|] | exact Hc].
    cbn [fs say set_fs].
    rewrite insert_fs_twice, lookup_fs_insert_ne; [exact Hd|].
    intros E. apply lookup_fs_Dir in Hd as [_ Hd]. rewrite E in Hd.
    contradiction.
Qed.

Lemma print_one_file_holds pr filepath job_title w :
  holds d w /\ cwd (fs w) = c ->
  holds d (print_one_file pr filepath job_title w).2 /\
  cwd (fs (print_one_file pr filepath job_title w).2) = c.
Proof.
  unfold print_one_file. intros H.
  destruct (printFile _ _ _ _); exact H.
Qed.

Lemma postprocess_fn_holds save_fn print_fn title pdf_content w :
  holds d w /\ cwd (fs w) = c ->
  holds d (postprocess_fn save_fn print_fn title pdf_content w).2 /\
  cwd (fs (postprocess_fn save_fn print_fn title pdf_content w).2) = c.
Proof.
  unfold postprocess_fn. intros H.
  destruct save_fn as [save_dir|]; [|exact H].
  destruct title as [t|]; [|exact H].
  pose proof (save_file_fn_holds save_dir (t +:+ ".pdf") pdf_content w H) as S.
  destruct (save_file_fn _ _ _ _) as [[filepath|e] w1]; [|exact S].
  destruct print_fn as [pr|]; [|exact S].
  apply print_one_file_holds. exact S.
Qed.

End KeepsTempDir.

(** What every invocation of the callback keeps, the loop keeps. *)
Lemma consume_keeps {W : Type} (P : W -> Prop) (f : callback W)
    (article_list : list string) :
  (forall title content w, P w -> P (f title content w).2) ->
  forall completed aidx w,
    P w -> P (main_state (consume article_list (Some f) aidx completed w)).
Proof.
  intros Hf. induction completed as [|[[pdf_file title]|e] rest IH];
    intros aidx w Hw; cbn [consume]; try exact Hw.
  destruct (article_list !! aidx); [|exact Hw].
  pose proof (Hf title pdf_file w Hw) as H1.
  destruct (f title pdf_file w) as [[u|e] w1]; [|exact H1].
  specialize (IH (S aidx) w1 H1).
  destruct (consume article_list (Some f) (S aidx) rest w1) as [[t r] w'].
  exact IH.
Qed.

Lemma truthy_nonempty (s : string) : s <> "" -> truthy (Some s) = true.
Proof. destruct s; [congruence | reflexivity]. Qed.

Lemma under_refl (fsys : filesystem) (d : string) : under fsys d d = true.
Proof. apply is_prefix_refl. Qed.

(** Removing a directory that is there removes it and what is below. *)
Lemma rmtree_Dir (d : string) (fsys : filesystem) :
  fsys !! d = Some Dir ->
  exists fsys', rmtree d fsys = Ok fsys' /\
    cwd fsys' = cwd fsys /\
    forall k, is_prefix (abspath fsys d) k = true -> tree fsys' !! k = None.
Proof.
  unfold rmtree. rewrite lookup_fs.
  destruct (stat fsys d) as [[|c]|e]; try discriminate.
  intros _. eexists. split; [reflexivity|]. split; [reflexivity|].
  intros k U. cbn [tree]. apply map_lookup_filter_None. right.
  intros x _. cbn. rewrite U. discriminate.
Qed.

(** After a directory that was not there at the start has been removed,
    no path names it or a place below it. *)
Lemma rmtree_gone (f fsys fsys' : filesystem) (d : string) :
  cwd fsys = cwd f -> d <> "" -> f !! d = None ->
  cwd fsys' = cwd fsys ->
  (forall k, is_prefix (abspath fsys d) k = true -> tree fsys' !! k = None) ->
  forall p, under f d p = true -> fsys' !! p = None.
Proof.
  intros Hc Hn Hfresh Hc' Hgone p U. unfold under in U.
  apply lookup_fs_None. unfold node_at.
  rewrite (abspath_cwd fsys fsys' p Hc'), (abspath_cwd f fsys p Hc).
  rewrite Hc', Hc.
  destruct (is_prefix (abspath f p) (cwd f)) eqn:P.
  - pose proof (is_prefix_trans _ _ _ U P) as Q.
    assert (D : f !! d = Some Dir).
    { apply lookup_fs_Dir. split; [exact Hn|]. unfold node_at.
      rewrite Q. reflexivity. }
    rewrite D in Hfresh. discriminate Hfresh.
  - apply Hgone. rewrite (abspath_cwd f fsys d Hc). exact U.
Qed.

Lemma setup_printing_obtains (cups : cups_env) (pr : printer) (loc : string)
    (w : world) :
  setup_printing_try cups = Some (Ok (pr, loc)) ->
  setup_printing cups true w =
  (Some pr, say ("using printer " +:+ pr_name pr +:+ " at location " +:+ loc) w).
Proof. unfold setup_printing. intros ->. reflexivity. Qed.

(** Without a directory to save to and with a printer, [setup_saving]
    makes the temporary directory and records it in the global. *)
Lemma setup_saving_temp (tmp_name : string) (save_dir : option string)
    (pr : printer) (w : world) :
  truthy save_dir = false ->
  setup_saving tmp_name save_dir (Some pr) w =
  (Ok (Some (Some tmp_name)),
   say ("saving to " +:+ tmp_name)
     (set_temp_dir (Some tmp_name) (set_fs (<[tmp_name := Dir]> (fs w)) w))).
Proof.
  unfold setup_saving. intros ->.
  rewrite (bool_decide_eq_true_2 (is_Some (Some pr))) by eauto.
  reflexivity.
Qed.

(** When the setup obtains a printer and no directory to save to is
    given, the [try] block ends, however it ends, in a state that holds
    the temporary directory; the working directory is as it was. *)
Lemma script_try_holds (E : env) (a : args) (f : filesystem)
    (pr : printer) (loc : string) :
  arg_print a = true -> truthy (arg_save a) = false ->
  setup_printing_try (env_cups E) = Some (Ok (pr, loc)) ->
  env_tmp E <> "" ->
  holds (env_tmp E) (script_try E a (start f)).2 /\
  cwd (fs (script_try E a (start f)).2) = cwd f.
Proof.
  intros Hp Hs Hc Hn. unfold script_try.
  rewrite Hp, (setup_printing_obtains _ pr loc _ Hc),
    (setup_saving_temp _ _ pr _ Hs).
  set (w2 := say _ (set_temp_dir _ _)).
  assert (H0 : holds (env_tmp E) w2 /\ cwd (fs w2) = cwd f).
  { split; [split|]; cbn; [reflexivity | | reflexivity].
    apply lookup_fs_insert_Dir. exact Hn. }
  destruct (generate_article_list (fs w2) (arg_input a)) as [articles|e];
    [|exact H0].
  unfold main.
  match goal with
  | |- context [consume ?l (Some ?g) ?i ?c ?w] =>
      pose proof (consume_keeps
                    (fun x => holds (env_tmp E) x /\ cwd (fs x) = cwd f) g l
                    (postprocess_fn_holds (env_tmp E) (cwd f) _ _) c i w) as K;
      destruct (consume l (Some g) i c w) as [[t r] w4]
  end.
  apply K. exact H0.
Qed.

(** C8, as the code has it.  When printing is requested without a
    directory to save to and the setup obtains a printer, a temporary
    directory that was not there is made and held through the [try]
    block, and after the [finally] block neither it nor anything below
    it is there, whether the batch returned or raised; the outcome of
    the run is that of the [try] block. *)
Theorem temp_dir_made_and_removed (E : env) (a : args) (f : filesystem)
    (pr : printer) (loc : string) :
  arg_print a = true -> truthy (arg_save a) = false ->
  setup_printing_try (env_cups E) = Some (Ok (pr, loc)) ->
  env_tmp E <> "" -> f !! env_tmp E = None ->
  holds_temp_dir (script_try E a (start f)).2 /\
  temp_dir (script_try E a (start f)).2 = Some (env_tmp E) /\
  (script E a (start f)).1 = (script_try E a (start f)).1 /\
  fs (script E a (start f)).2 !! env_tmp E = None /\
  forall p, under f (env_tmp E) p = true ->
            fs (script E a (start f)).2 !! p = None.
Proof.
  intros Hp Hs Hc Hn Hfresh.
  destruct (script_try_holds E a f pr loc Hp Hs Hc Hn) as [[Ht Hd] Hcwd].
  split; [exists (env_tmp E); split; assumption|].
  split; [exact Ht|].
  unfold script. destruct (script_try E a (start f)) as [r w1].
  cbn [snd fst] in *. unfold script_finally.
  rewrite Ht, (truthy_nonempty _ Hn). cbn [from_option id].
  destruct (rmtree_Dir (env_tmp E)
              (fs (say "deleting temporary directory" w1)) Hd)
    as (f' & -> & Hc' & Hgone).
  pose proof (rmtree_gone f _ f' (env_tmp E) Hcwd Hn Hfresh Hc' Hgone) as G.
  split; [reflexivity|]. split; [|exact G].
  apply G, under_refl.
Qed.

Lemma temp_dir_made_and_removed_witness :
  holds_temp_dir
    (script_try (sample_env (Cups office_conn) [1; 0])
       (print_only "1706.03762,1810.04805") (start tmp_fs)).2 /\
  temp_dir
    (script_try (sample_env (Cups office_conn) [1; 0])
       (print_only "1706.03762,1810.04805") (start tmp_fs)).2
  = Some "/tmp/tmpq1w2e3r4" /\
  (script (sample_env (Cups office_conn) [1; 0])
     (print_only "1706.03762,1810.04805") (start tmp_fs)).1
  = (script_try (sample_env (Cups office_conn) [1; 0])
       (print_only "1706.03762,1810.04805") (start tmp_fs)).1 /\
  fs (script (sample_env (Cups office_conn) [1; 0])
        (print_only "1706.03762,1810.04805") (start tmp_fs)).2
    !! "/tmp/tmpq1w2e3r4" = None /\
  forall p, under tmp_fs "/tmp/tmpq1w2e3r4" p = true ->
            fs (script (sample_env (Cups office_conn) [1; 0])
                  (print_only "1706.03762,1810.04805") (start tmp_fs)).2 !! p
            = None.
Proof.
  apply (temp_dir_made_and_removed (sample_env (Cups office_conn) [1; 0])
           (print_only "1706.03762,1810.04805") tmp_fs
           {| pr_conn := office_conn; pr_name := "office" |} "2nd floor").
  - reflexivity.
  - reflexivity.
  - vm_compute. reflexivity.
  - discriminate.
  - vm_compute. reflexivity.
Defined.

(** C8, as the claim has it, fails when the binding to the print service
    is missing: printing is requested without a directory to save to,
    and no temporary directory is made (the global stays unset and the
    file system is as it was). *)
Lemma no_temp_dir_without_print_service :
  arg_print (print_only "1706.03762") = true /\
  arg_save (print_only "1706.03762") = None /\
  ~ holds_temp_dir
      (script_try (sample_env NoPycups [0]) (print_only "1706.03762")
         (start tmp_fs)).2 /\
  fs (script_try (sample_env NoPycups [0]) (print_only "1706.03762")
        (start tmp_fs)).2 = tmp_fs.
Proof.
  split; [reflexivity|]. split; [reflexivity|]. split.
  - intros (d & H & _). vm_compute in H. discriminate H.
  - vm_compute. reflexivity.
Qed.

(** A batch that returns: two files are saved and printed from the
    temporary directory, which is gone at the end. *)
Example print_only_run_returns :
  let run := script (sample_env (Cups office_conn) [1; 0])
               (print_only "1706.03762,1810.04805") (start tmp_fs) in
  run.1 = Ok tt /\ fs run.2 = tmp_fs /\
  jobs run.2
  = [("office", "/tmp/tmpq1w2e3r4/BERT.pdf", "BERT");
     ("office", "/tmp/tmpq1w2e3r4/Attention Is All You Need.pdf",
      "Attention Is All You Need")].
Proof. vm_compute. repeat split. Qed.

(** A batch that raises on its second line: the first file was saved,
    and the temporary directory is gone all the same. *)
Example print_only_run_raises :
  let run := script (sample_env (Cups office_conn) [0; 1])
               (print_only "1706.03762,nothing") (start tmp_fs) in
  run.1 = Raise (ValueError "invalid input nothing") /\ fs run.2 = tmp_fs.
Proof. vm_compute. repeat split. Qed.

(** * Further properties *)

(** ** The requests *)

Lemma get_pdf_file_outcome (srv : server) (aid : string) :
  outcome (get_pdf_file srv aid) =
  match srv (ARXIV_PDF_URL_BASE +:+ aid) with
  | None => Raise ClientConnectionError
  | Some resp =>
      if 400 <=? status resp then Raise (ClientResponseError (status resp))
      else Ok (body resp)
  end.
Proof.
  unfold get_pdf_file. rewrite session_get_answer.
  destruct (srv _) as [resp|]; [|reflexivity].
  rewrite bind_Ok. unfold raise_for_status.
  destruct (400 <=? status resp); reflexivity.
Qed.

Lemma get_pdf_name_outcome (srv : server) (aid : string) :
  outcome (get_pdf_name srv aid) =
  match srv (ARXIV_ABS_URL_BASE +:+ aid) with
  | None => Raise ClientConnectionError
  | Some resp =>
      if 400 <=? status resp then Raise (ClientResponseError (status resp))
      else
        match Re.search FIND_TITLE_REGEX (text resp) with
        | Some m => Ok (Re.group m 1, strip (Re.group m 2))
        | None =>
            Raise (AttributeError "'NoneType' object has no attribute 'group'")
        end
  end.
Proof.
  unfold get_pdf_name. rewrite session_get_answer.
  destruct (srv _) as [resp|]; [|reflexivity].
  rewrite bind_Ok. unfold raise_for_status.
  destruct (400 <=? status resp); [reflexivity|].
  unfold ret at 1. rewrite bind_Ok.
  destruct (Re.search FIND_TITLE_REGEX (text resp)); reflexivity.
Qed.

Lemma success_leb (resp : response) :
  (400 <=? status resp) = false <-> success resp.
Proof. unfold success. rewrite Nat.leb_gt. reflexivity. Qed.

(** X1.  [get_pdf_file] makes one request, for the document of the
    identifier, and returns bytes exactly when that request is answered
    with a status below 400: the bytes are the body of the answer.  A
    status from 400 on is raised as a [ClientResponseError] that carries
    it. *)
Theorem get_pdf_file_returns_the_body (srv : server) (aid : string) :
  trace (get_pdf_file srv aid) = [Get (ARXIV_PDF_URL_BASE +:+ aid)] /\
  (forall b, outcome (get_pdf_file srv aid) = Ok b <->
             exists resp, srv (ARXIV_PDF_URL_BASE +:+ aid) = Some resp /\
                          success resp /\ body resp = b) /\
  (forall resp, srv (ARXIV_PDF_URL_BASE +:+ aid) = Some resp ->
                ~ success resp ->
                outcome (get_pdf_file srv aid)
                = Raise (ClientResponseError (status resp))).
Proof.
  split; [apply get_pdf_file_trace|]. rewrite get_pdf_file_outcome. split.
  - intros b. split.
    + destruct (srv _) as [resp|]; [|discriminate].
      destruct (400 <=? status resp) eqn:C; [discriminate|].
      intros [= <-]. exists resp. repeat split. apply success_leb. exact C.
    + intros (resp & -> & Hs & <-). apply success_leb in Hs. rewrite Hs.
      reflexivity.
  - intros resp -> Hs. destruct (400 <=? status resp) eqn:C; [reflexivity|].
    apply success_leb in C. contradiction.
Qed.

Lemma get_pdf_file_returns_the_body_witness :
  outcome (get_pdf_file attention_server "1706.03762") = Ok pdf_fake /\
  outcome (get_pdf_file unavailable_server "1706.03762")
  = Raise (ClientResponseError 503).
Proof.
  split.
  - apply (proj1 (proj2 (get_pdf_file_returns_the_body attention_server
                           "1706.03762"))).
    exists {| status := 200; text := ""; body := pdf_fake |}.
    split; [reflexivity|]. split; [unfold success; simpl; lia | reflexivity].
  - apply (proj2 (proj2 (get_pdf_file_returns_the_body unavailable_server
                           "1706.03762"))
             {| status := 503;
                text := "<title>[1706.03762] Attention Is All You Need</title>";
                body := pdf_fake |}).
    + reflexivity.
    + unfold success. simpl. lia.
Defined.

(** X2.  [get_pdf_name] looks at the body only of an answer with a
    status below 400: on a status from 400 on it raises the
    [ClientResponseError] of that status, whatever the body holds, and
    without an answer it raises the connection error; either way it has
    made its one request. *)
Theorem get_pdf_name_status_first (srv : server) (aid : string) :
  (forall resp, srv (ARXIV_ABS_URL_BASE +:+ aid) = Some resp ->
                ~ success resp ->
                get_pdf_name srv aid
                = ([Get (ARXIV_ABS_URL_BASE +:+ aid)],
                   Raise (ClientResponseError (status resp)))) /\
  (srv (ARXIV_ABS_URL_BASE +:+ aid) = None ->
   get_pdf_name srv aid
   = ([Get (ARXIV_ABS_URL_BASE +:+ aid)], Raise ClientConnectionError)).
Proof.
  rewrite (io_eta (get_pdf_name srv aid)), get_pdf_name_trace,
    get_pdf_name_outcome.
  split.
  - intros resp -> Hs. destruct (400 <=? status resp) eqn:C; [reflexivity|].
    apply success_leb in C. contradiction.
  - intros ->. reflexivity.
Qed.

Lemma get_pdf_name_status_first_witness :
  get_pdf_name unavailable_server "1706.03762"
  = ([Get (ARXIV_ABS_URL_BASE +:+ "1706.03762")],
     Raise (ClientResponseError 503)) /\
  get_pdf_name (fun _ => None) "1706.03762"
  = ([Get (ARXIV_ABS_URL_BASE +:+ "1706.03762")], Raise ClientConnectionError).
Proof.
  split.
  - apply (proj1 (get_pdf_name_status_first unavailable_server "1706.03762")
             {| status := 503;
                text := "<title>[1706.03762] Attention Is All You Need</title>";
                body := pdf_fake |}).
    + reflexivity.
    + unfold success. simpl. lia.
  - apply (proj2 (get_pdf_name_status_first (fun _ => None) "1706.03762")).
    reflexivity.
Defined.

(** ** The identifier that is extracted *)

Lemma occurs_at_whole (w : string) : occurs_at w 0 w.
Proof. exists "", "". rewrite app_nil_r. split; reflexivity. Qed.

Lemma occurs_at_length (w s : string) (i : nat) :
  occurs_at w i s -> i + String.length w <= String.length s.
Proof.
  intros (pre & post & -> & <-). rewrite !length_app_str. lia.
Qed.

(** A text has one first match at most. *)
Lemma first_match_unique (r : Re.regex) (s w w' : string) :
  first_match r s w -> first_match r s w' -> w = w'.
Proof.
  intros (i & O & L & Hmin) (i' & O' & L' & Hmin').
  pose proof (Hmin i' w' O' L') as H1. pose proof (Hmin' i w O L) as H2.
  assert (Ei : i = i') by lia. subst i'.
  assert (Hl : String.length w = String.length w') by lia.
  destruct O as (pre & post & E1 & P1), O' as (pre' & post' & E2 & P2).
  rewrite E1 in E2.
  destruct (app_inj_length _ _ _ _ E2) as [_ E3]; [lia|].
  destruct (app_inj_length _ _ _ _ E3) as [E4 _]; [lia | exact E4].
Qed.

(** X3.  What [get_article_id] returns is an identifier in canonical
    form (four digits, a dot, five or six digits: ten or eleven
    characters), and extracting from it gives it back. *)
Theorem get_article_id_canonical (line w : string) :
  get_article_id line = Ok w ->
  get_article_id w = Ok w /\
  (String.length w = 10 \/ String.length w = 11) /\
  exists a b, w = a +:+ "." +:+ b /\
    Re.all_chars Re.is_digit a = true /\ String.length a = 4 /\
    Re.all_chars Re.is_digit b = true.
Proof.
  intros H. pose proof (get_article_id_cases line) as C. rewrite H in C.
  destruct C as (i & O & [g M] & _).
  pose proof (id_lang _ _ _ M) as (a & b & -> & _ & Ha & La & Hb & Lb).
  split; [|split].
  - pose proof (get_article_id_cases (a +:+ "." +:+ b)) as C2.
    destruct (get_article_id (a +:+ "." +:+ b)) as [w'|e].
    + f_equal. symmetry.
      destruct C2 as (i' & O' & L' & Hmin').
      destruct (Hmin' 0 _ (occurs_at_whole _) (ex_intro _ g M))
        as [Lt|[-> Hl]]; [lia|].
      pose proof (occurs_at_length _ _ _ O') as Hlen.
      destruct O' as (pre & post & E & P).
      destruct pre; [|discriminate]. rewrite app_nil_l in E.
      assert (E' : (a +:+ "." +:+ b) +:+ "" = w' +:+ post)
        by (rewrite app_nil_r; exact E).
      destruct (app_inj_length _ _ _ _ E') as [E4 _]; [simpl in Hlen; lia|].
      exact E4.
    + destruct C2 as [_ N].
      destruct (N 0 _ (occurs_at_whole _) (ex_intro _ g M)).
  - rewrite !length_app_str. simpl. lia.
  - exists a, b. repeat split; assumption.
Qed.

Lemma get_article_id_canonical_witness :
  get_article_id "1706.03762" = Ok "1706.03762" /\
  (String.length "1706.03762" = 10 \/ String.length "1706.03762" = 11) /\
  exists a b, "1706.03762" = a +:+ "." +:+ b /\
    Re.all_chars Re.is_digit a = true /\ String.length a = 4 /\
    Re.all_chars Re.is_digit b = true.
Proof.
  apply (get_article_id_canonical "see arXiv:1706.03762v5" "1706.03762").
  reflexivity.
Defined.

(** ** The pipeline from end to end *)

Lemma id_is_embedded_id (w : string) :
  Re.in_lang FIND_ID_REGEX w -> embedded_id w.
Proof.
  intros [g M]. apply id_lang in M as (a & b & -> & _ & Ha & _ & Hb & _).
  exists a, b. repeat split; assumption.
Qed.

(** A title element is one in one way. *)
Lemma title_element_inj (id id' t t' : string) :
  embedded_id id -> embedded_id id' ->
  title_element id t = title_element id' t' -> id = id' /\ t = t'.
Proof.
  intros (a & b & -> & Ha & Hb) (a' & b' & -> & Ha' & Hb') E.
  unfold title_element in E. rewrite !app_assoc_str in E.
  destruct (app_inj_length _ _ _ _ E eq_refl) as [_ E2].
  change ("." +:+ ?x) with (String "." x) in E2.
  destruct (run_unique Re.is_digit a a' "."%char "."%char _ _ Ha Ha' eq_refl
              eq_refl E2) as (<- & _ & E3).
  change ("]" +:+ ?x) with (String "]" x) in E3.
  destruct (run_unique Re.is_digit b b' "]"%char "]"%char _ _ Hb Hb' eq_refl
              eq_refl E3) as (<- & _ & E4).
  split; [reflexivity|].
  assert (L : String.length t = String.length t').
  { apply (f_equal String.length) in E4. rewrite !length_app_str in E4. lia. }
  destruct (app_inj_length _ _ _ _ E4 L) as [E5 _]. exact E5.
Qed.

(** X4.  The pipeline from end to end.  When the first identifier in the
    line is [aid], the summary of [aid] is answered with a status below
    400 and a body whose first title element carries [aid] and the
    title text [title], and the document of [aid] is answered with a
    status below 400, the run logs the identifier, requests the summary
    and then the document, and returns the body of the document with
    the stripped title. *)
Theorem process_one_article_end_to_end (srv : server)
    (line aid title : string) (summary document : response) :
  first_match FIND_ID_REGEX line aid ->
  srv (ARXIV_ABS_URL_BASE +:+ aid) = Some summary -> success summary ->
  first_match FIND_TITLE_REGEX (text summary) (title_element aid title) ->
  srv (ARXIV_PDF_URL_BASE +:+ aid) = Some document -> success document ->
  process_one_article srv line
  = ([Info ("processing article " +:+ aid);
      Get (ARXIV_ABS_URL_BASE +:+ aid);
      Get (ARXIV_PDF_URL_BASE +:+ aid)],
     Ok (PyBytes (body document), PyStr (strip title))).
Proof.
  intros Fid Hs1 Ok1 Ft Hs2 Ok2.
  rewrite process_one_article_steps.
  pose proof (get_article_id_cases line) as C.
  destruct (get_article_id line) as [w|e].
  2:{ destruct C as [_ N]. destruct Fid as (i & O & L & _).
      destruct (N i aid O L). }
  rewrite (first_match_unique _ _ _ _ C Fid). cbn zeta.
  rewrite get_pdf_name_outcome, Hs1.
  apply success_leb in Ok1. rewrite Ok1.
  pose proof (search_title_cases (text summary)) as T.
  destruct (Re.search FIND_TITLE_REGEX (text summary)) as [m|].
  2:{ destruct Ft as (i & O & L & _). destruct (T i _ O L). }
  destruct T as (id & t & Hid & _ & F & -> & ->).
  assert (Haid : embedded_id aid).
  { destruct Fid as (_ & _ & L & _). apply id_is_embedded_id. exact L. }
  destruct (title_element_inj _ _ _ _ Hid Haid
              (first_match_unique _ _ _ _ F Ft)) as [-> ->].
  rewrite String.eqb_refl, get_pdf_file_outcome, Hs2.
  apply success_leb in Ok2. rewrite Ok2. reflexivity.
Qed.

Lemma search_first_title (xml : string) (m : Re.groups) (id t : string) :
  Re.search FIND_TITLE_REGEX xml = Some m ->
  Re.group m 1 = id -> Re.group m 2 = t ->
  first_match FIND_TITLE_REGEX xml (title_element id t).
Proof.
  intros H <- <-. pose proof (search_title_cases xml) as T. rewrite H in T.
  destruct T as (id & t & _ & _ & F & -> & ->). exact F.
Qed.

Lemma get_article_id_Ok (line w : string) :
  get_article_id line = Ok w -> first_match FIND_ID_REGEX line w.
Proof.
  intros H. pose proof (get_article_id_cases line) as C. rewrite H in C.
  exact C.
Qed.

Lemma process_one_article_end_to_end_witness :
  process_one_article attention_server "see arXiv:1706.03762v5"
  = ([Info ("processing article " +:+ "1706.03762");
      Get (ARXIV_ABS_URL_BASE +:+ "1706.03762");
      Get (ARXIV_PDF_URL_BASE +:+ "1706.03762")],
     Ok (PyBytes pdf_fake, PyStr (strip " Attention Is All You Need"))).
Proof.
  apply (process_one_article_end_to_end attention_server
           "see arXiv:1706.03762v5" "1706.03762" " Attention Is All You Need"
           {| status := 200;
              text := "<title>[1706.03762] Attention Is All You Need</title>";
              body := [] |}
           {| status := 200; text := ""; body := pdf_fake |}).
  - apply get_article_id_Ok. vm_compute. reflexivity.
  - vm_compute. reflexivity.
  - unfold success. simpl. lia.
  - apply (search_first_title _
             (<[0 := "<title>[1706.03762] Attention Is All You Need</title>"]>
                (<[2 := " Attention Is All You Need"]>
                   (<[1 := "1706.03762"]> ∅))));
      vm_compute; reflexivity.
  - vm_compute. reflexivity.
  - unfold success. simpl. lia.
Defined.

(** X5.  A run that returns had what it needs: the line holds an
    identifier, the first one being [aid]; the summary and the document
    of [aid] were answered with a status below 400; the first title
    element of the summary carries [aid]; and the pair returned is the
    body of the document and the stripped title text of that element. *)
Theorem process_one_article_success_requires (srv : server) (line : string)
    (content title : pyval) :
  outcome (process_one_article srv line) = Ok (content, title) ->
  exists aid t summary document,
    first_match FIND_ID_REGEX line aid /\
    srv (ARXIV_ABS_URL_BASE +:+ aid) = Some summary /\ success summary /\
    first_match FIND_TITLE_REGEX (text summary) (title_element aid t) /\
    srv (ARXIV_PDF_URL_BASE +:+ aid) = Some document /\ success document /\
    content = PyBytes (body document) /\ title = PyStr (strip t).
Proof.
  rewrite process_one_article_steps.
  pose proof (get_article_id_cases line) as C.
  destruct (get_article_id line) as [aid|e]; [|discriminate].
  cbn zeta. rewrite get_pdf_name_outcome.
  destruct (srv (ARXIV_ABS_URL_BASE +:+ aid)) as [summary|] eqn:Hs1;
    [|discriminate].
  destruct (400 <=? status summary) eqn:Ok1; [discriminate|].
  pose proof (search_first_title (text summary)) as T.
  destruct (Re.search FIND_TITLE_REGEX (text summary)) as [m|]; [|discriminate].
  specialize (T m _ _ eq_refl eq_refl eq_refl).
  destruct (String.eqb_spec aid (Re.group m 1)) as [E|_]; [|discriminate].
  rewrite <- E in T. unfold outcome at 1. cbn [snd].
  rewrite get_pdf_file_outcome.
  destruct (srv (ARXIV_PDF_URL_BASE +:+ aid)) as [document|] eqn:Hs2;
    [|discriminate].
  destruct (400 <=? status document) eqn:Ok2; [discriminate|].
  intros [= <- <-].
  exists aid, (Re.group m 2), summary, document.
  apply success_leb in Ok1, Ok2. repeat split; assumption.
Qed.

Lemma process_one_article_success_requires_witness :
  exists aid t summary document,
    first_match FIND_ID_REGEX "see arXiv:1706.03762v5" aid /\
    attention_server (ARXIV_ABS_URL_BASE +:+ aid) = Some summary /\
    success summary /\
    first_match FIND_TITLE_REGEX (text summary) (title_element aid t) /\
    attention_server (ARXIV_PDF_URL_BASE +:+ aid) = Some document /\
    success document /\
    PyBytes pdf_fake = PyBytes (body document) /\
    PyStr "Attention Is All You Need" = PyStr (strip t).
Proof.
  apply (process_one_article_success_requires attention_server
           "see arXiv:1706.03762v5" (PyBytes pdf_fake)
           (PyStr "Attention Is All You Need")).
  vm_compute. reflexivity.
Defined.

(** X6.  A run stops at its first failing step and raises what that
    step raised: a line without identifier leaves no event at all (no
    log record, no request); a failed summary request leaves no request
    for the document; a failed document request comes after the log
    record and the summary request. *)
Theorem process_one_article_stops_at_first_failure (srv : server)
    (line : string) :
  (forall e, get_article_id line = Raise e ->
             process_one_article srv line = ([], Raise e)) /\
  (forall aid e,
     get_article_id line = Ok aid ->
     outcome (get_pdf_name srv aid) = Raise e ->
     process_one_article srv line
     = ([Info ("processing article " +:+ aid);
         Get (ARXIV_ABS_URL_BASE +:+ aid)], Raise e)) /\
  (forall aid title e,
     get_article_id line = Ok aid ->
     outcome (get_pdf_name srv aid) = Ok (aid, title) ->
     outcome (get_pdf_file srv aid) = Raise e ->
     process_one_article srv line
     = ([Info ("processing article " +:+ aid);
         Get (ARXIV_ABS_URL_BASE +:+ aid);
         Get (ARXIV_PDF_URL_BASE +:+ aid)], Raise e)).
Proof.
  rewrite process_one_article_steps. split; [|split].
  - intros e ->. reflexivity.
  - intros aid e -> ->. reflexivity.
  - intros aid title e -> -> ->. cbn zeta.
    rewrite String.eqb_refl. reflexivity.
Qed.

Lemma process_one_article_stops_at_first_failure_witness :
  process_one_article attention_server "no identifier here"
  = ([], Raise (ValueError "invalid input no identifier here")) /\
  process_one_article unavailable_server "1706.03762"
  = ([Info ("processing article " +:+ "1706.03762");
      Get (ARXIV_ABS_URL_BASE +:+ "1706.03762")],
     Raise (ClientResponseError 503)) /\
  process_one_article no_document_server "1706.03762"
  = ([Info ("processing article " +:+ "1706.03762");
      Get (ARXIV_ABS_URL_BASE +:+ "1706.03762");
      Get (ARXIV_PDF_URL_BASE +:+ "1706.03762")],
     Raise (ClientResponseError 404)).
Proof.
  split; [|split].
  - apply (proj1 (process_one_article_stops_at_first_failure attention_server
                    "no identifier here")).
    vm_compute. reflexivity.
  - apply (proj1 (proj2 (process_one_article_stops_at_first_failure
                           unavailable_server "1706.03762")) "1706.03762");
      vm_compute; reflexivity.
  - apply (proj2 (proj2 (process_one_article_stops_at_first_failure
                           no_document_server "1706.03762"))
             "1706.03762" "Attention Is All You Need");
      vm_compute; reflexivity.
Defined.

(** ** The coordinator, further *)

Lemma calls_block (line : string) (title content : pyval) (t : list event) :
  calls (InfoGot line title :: Call title content :: Done title content :: t)
  = (title, content) :: calls t.
Proof. reflexivity. Qed.

Lemma logged_block (line : string) (title content : pyval) (t : list event) :
  logged (InfoGot line title :: Call title content :: Done title content :: t)
  = (line, title) :: logged t.
Proof. reflexivity. Qed.

(** The loop up to the first failed run, when the invocations for the
    runs before it return: one awaited invocation for each of these
    runs, in their order, the state these invocations leave, and then
    the error of the failed run. *)
Lemma consume_until_failure {W : Type} (article_list : list string)
    (f : callback W) (e : exn) (rest : list (result (pyval * pyval))) :
  forall pre aidx w w1,
    invoke_all f pre w = Some w1 ->
    aidx + length pre < length article_list ->
    main_outcome (consume article_list (Some f) aidx
                    (map Ok pre ++ Raise e :: rest) w)
    = Raise e /\
    main_state (consume article_list (Some f) aidx
                  (map Ok pre ++ Raise e :: rest) w)
    = w1 /\
    calls (main_trace (consume article_list (Some f) aidx
                         (map Ok pre ++ Raise e :: rest) w))
    = map (fun r => (r.2, r.1)) pre /\
    awaited (main_trace (consume article_list (Some f) aidx
                           (map Ok pre ++ Raise e :: rest) w)).
Proof.
  induction pre as [|[pdf_file title] pre IH]; intros aidx w w1 Hf Hlen.
  - injection Hf as <-. repeat split.
  - cbn [consume length app map invoke_all] in *.
    destruct (lookup_lt_is_Some_2 article_list aidx) as [line ->]; [lia|].
    destruct (f title pdf_file w) as [[[]|e'] w2]; [|discriminate Hf].
    specialize (IH (S aidx) w2 w1 Hf ltac:(lia)).
    destruct (consume article_list (Some f) (S aidx)
                (map Ok pre ++ Raise e :: rest) w2) as [[t r] w'].
    unfold main_outcome, main_trace, main_state in *. cbn [fst snd] in *.
    destruct IH as (Hr & Hw & Hc & Ha).
    split; [exact Hr|]. split; [exact Hw|]. split; [|repeat split; exact Ha].
    rewrite calls_block. rewrite Hc. reflexivity.
Qed.

Lemma completed_length (srv : server) (article_list : list string)
    (order : list nat) :
  Permutation order (seq 0 (length article_list)) ->
  length (as_completed (map outcome (map (process_one_article srv) article_list))
            order) = length article_list.
Proof.
  intros P. rewrite as_completed_length.
  - rewrite (Permutation_length P). apply length_seq.
  - rewrite !length_map. apply order_in_range. exact P.
Qed.

(** X7.  The first run to fail, in the order of completion, ends the
    batch: when the invocations of the callback for the runs that
    completed before it return, [main] raises the error of that run,
    after exactly one awaited invocation for each of these runs, in the
    order of completion, and in the state that these invocations leave;
    the runs after it are not taken up. *)
Theorem main_aborts_at_first_failure {W : Type} (srv : server)
    (order : list nat) (article_list : list string) (f : callback W)
    (w w1 : W) (pre : list (pyval * pyval))
    (rest : list (result (pyval * pyval))) (e : exn) :
  Permutation order (seq 0 (length article_list)) ->
  as_completed (map outcome (map (process_one_article srv) article_list)) order
  = map Ok pre ++ Raise e :: rest ->
  invoke_all f pre w = Some w1 ->
  main_outcome (main srv order article_list (Some f) w) = Raise e /\
  main_state (main srv order article_list (Some f) w) = w1 /\
  calls (main_trace (main srv order article_list (Some f) w))
  = map (fun r => (r.2, r.1)) pre /\
  awaited (main_trace (main srv order article_list (Some f) w)).
Proof.
  intros P E Hf. unfold main. rewrite E.
  apply consume_until_failure; [exact Hf|].
  pose proof (completed_length srv article_list order P) as L.
  rewrite E, length_app, length_map in L. simpl in *. lia.
Qed.

Lemma main_aborts_at_first_failure_witness :
  main_outcome (main two_server [1; 2; 0]
                  ["1706.03762"; "1810.04805"; "nothing"] (Some counting) 0)
  = Raise (ValueError "invalid input nothing") /\
  main_state (main two_server [1; 2; 0]
                ["1706.03762"; "1810.04805"; "nothing"] (Some counting) 0)
  = 1 /\
  calls (main_trace (main two_server [1; 2; 0]
                       ["1706.03762"; "1810.04805"; "nothing"]
                       (Some counting) 0))
  = map (fun r => (r.2, r.1)) [(PyBytes [], PyStr "BERT")] /\
  awaited (main_trace (main two_server [1; 2; 0]
                         ["1706.03762"; "1810.04805"; "nothing"]
                         (Some counting) 0)).
Proof.
  apply (main_aborts_at_first_failure two_server [1; 2; 0]
           ["1706.03762"; "1810.04805"; "nothing"] counting 0 1
           [(PyBytes [], PyStr "BERT")]
           [Ok (PyBytes pdf_fake, PyStr "Attention Is All You Need")]
           (ValueError "invalid input nothing")).
  - simpl. apply Permutation_sym.
    apply (Permutation_cons_app [1; 2] [] 0). reflexivity.
  - vm_compute. reflexivity.
  - vm_compute. reflexivity.
Defined.

(** Whatever the callback does, its invocations are those of an initial
    segment of the results, in their order; the segment is all of the
    results when the loop runs to its end. *)
Lemma consume_calls_prefix {W : Type} (article_list : list string)
    (f : callback W) :
  forall completed aidx w,
    exists rest,
      completed
      = map (fun tc => Ok (tc.2, tc.1))
          (calls (main_trace (consume article_list (Some f) aidx completed w)))
        ++ rest /\
      (main_outcome (consume article_list (Some f) aidx completed w) = Ok tt ->
       rest = []).
Proof.
  induction completed as [|[[pdf_file title]|e] completed IH]; intros aidx w.
  - exists []. split; reflexivity.
  - cbn [consume].
    destruct (article_list !! aidx) as [line|].
    + destruct (f title pdf_file w) as [[[]|e] w1].
      * destruct (IH (S aidx) w1) as (rest & E & Hr).
        destruct (consume article_list (Some f) (S aidx) completed w1)
          as [[t r] w'].
        unfold main_outcome, main_trace in *. cbn [fst snd] in *.
        exists rest. rewrite calls_block. cbn [map fst snd app].
        split; [rewrite <- E; reflexivity | exact Hr].
      * exists completed. split; [reflexivity|]. intros H. discriminate H.
    + exists (Ok (pdf_file, title) :: completed).
      split; [reflexivity|]. intros H. discriminate H.
  - exists (Raise e :: completed). split; [reflexivity|].
    intros H. discriminate H.
Qed.

(** X9.  The callback is invoked in the order of completion, whatever
    it does and whatever the runs give: its invocations, read as
    (content, title) pairs, are the results of the runs that completed
    first, in the order in which they completed, with none left out in
    between; and when [main] returns, they are the results of all the
    runs. *)
Theorem main_invokes_in_completion_order {W : Type} (srv : server)
    (order : list nat) (article_list : list string) (f : callback W) (w : W) :
  exists rest,
    as_completed (map outcome (map (process_one_article srv) article_list))
      order
    = map (fun tc => Ok (tc.2, tc.1))
        (calls (main_trace (main srv order article_list (Some f) w)))
      ++ rest /\
    (main_outcome (main srv order article_list (Some f) w) = Ok tt ->
     rest = []).
Proof. unfold main. apply consume_calls_prefix. Qed.

Lemma main_invokes_in_completion_order_witness :
  exists rest,
    as_completed
      (map outcome (map (process_one_article two_server)
                      ["1706.03762"; "1810.04805"])) [1; 0]
    = map (fun tc => Ok (tc.2, tc.1))
        (calls (main_trace (main two_server [1; 0]
                              ["1706.03762"; "1810.04805"]
                              (Some refusing) 0)))
      ++ rest /\
    (main_outcome (main two_server [1; 0] ["1706.03762"; "1810.04805"]
                     (Some refusing) 0) = Ok tt ->
     rest = []).
Proof.
  apply (main_invokes_in_completion_order two_server [1; 0]
           ["1706.03762"; "1810.04805"] refusing 0).
Defined.

(** The [k]-th to complete is the task that the order names at [k]. *)
Lemma as_completed_lookup {A : Type} (tasks : list A) (order : list nat) :
  Forall (fun j => j < length tasks) order ->
  forall k x, as_completed tasks order !! k = Some x ->
    exists j, order !! k = Some j /\ tasks !! j = Some x.
Proof.
  unfold as_completed. induction 1 as [|j order Hj _ IH]; intros k x.
  - discriminate.
  - change (omap (fun j => tasks !! j) (j :: order))
      with (match tasks !! j with
            | Some y => y :: omap (fun j => tasks !! j) order
            | None => omap (fun j => tasks !! j) order
            end).
    destruct (lookup_lt_is_Some_2 tasks j Hj) as [y Hy]. rewrite Hy.
    destruct k as [|k]; cbn [lookup list_lookup].
    + intros [= <-]. exists j. split; [reflexivity | exact Hy].
    + apply IH.
Qed.

Lemma task_lookup (srv : server) (article_list : list string) (j : nat)
    (r : result (pyval * pyval)) :
  map outcome (map (process_one_article srv) article_list) !! j = Some r ->
  exists origin, article_list !! j = Some origin /\
                 outcome (process_one_article srv origin) = r.
Proof.
  rewrite map_map. intros H.
  change (map (fun x => outcome (process_one_article srv x)) article_list)
    with ((fun x => outcome (process_one_article srv x)) <$> article_list) in H.
  apply list_lookup_fmap_Some in H as (origin & -> & Ho).
  exists origin. split; [exact Ho | reflexivity].
Qed.

(** The records of the log against the order of completion. *)
Lemma logged_by_rank {W : Type} (srv : server)
    (order : list nat) (article_list : list string)
    (postproc_fn : option (callback W)) (w : W)
    (k : nat) (line : string) (title : pyval) :
  Permutation order (seq 0 (length article_list)) ->
  logged (main_trace (main srv order article_list postproc_fn w)) !! k
  = Some (line, title) ->
  article_list !! k = Some line /\
  exists j origin content,
    order !! k = Some j /\ article_list !! j = Some origin /\
    outcome (process_one_article srv origin) = Ok (content, title).
Proof.
  intros P H. unfold main in H.
  apply consume_logged in H as [Hl [content Hc]].
  split; [exact Hl|].
  apply as_completed_lookup in Hc as (j & Hj & Ht).
  2:{ rewrite !length_map. apply order_in_range. exact P. }
  apply task_lookup in Ht as (origin & Ho & Hr).
  exists j, origin, content. repeat split; assumption.
Qed.

(** X10.  What [main] logs, for any order of completion: the [k]-th
    record names the [k]-th line of the input and the title that the
    [k]-th run to complete returned, a run launched from the line at
    the index that the order has at [k]. *)
Theorem main_logs_by_completion_rank {W : Type} (srv : server)
    (order : list nat) (article_list : list string)
    (postproc_fn : option (callback W)) (w : W)
    (k : nat) (line : string) (title : pyval) :
  Permutation order (seq 0 (length article_list)) ->
  logged (main_trace (main srv order article_list postproc_fn w)) !! k
  = Some (line, title) ->
  article_list !! k = Some line /\
  exists j origin content,
    order !! k = Some j /\ article_list !! j = Some origin /\
    outcome (process_one_article srv origin) = Ok (content, title).
Proof. apply logged_by_rank. Qed.

Lemma main_logs_by_completion_rank_witness :
  ["1706.03762"; "1810.04805"] !! 0 = Some "1706.03762" /\
  exists j origin content,
    [1; 0] !! 0 = Some j /\
    ["1706.03762"; "1810.04805"] !! j = Some origin /\
    outcome (process_one_article two_server origin)
    = Ok (content, PyStr "BERT").
Proof.
  apply (main_logs_by_completion_rank two_server [1; 0]
           ["1706.03762"; "1810.04805"] (Some counting) 0 0 "1706.03762"
           (PyStr "BERT")).
  - simpl. apply perm_swap.
  - vm_compute. reflexivity.
Defined.

(** X11.  When the runs complete in the order of submission, every
    record of the log names the line its title was fetched for. *)
Theorem main_logs_origin_in_submission_order {W : Type} (srv : server)
    (article_list : list string) (postproc_fn : option (callback W)) (w : W)
    (k : nat) (line : string) (title : pyval) :
  logged (main_trace (main srv (seq 0 (length article_list)) article_list
                        postproc_fn w)) !! k
  = Some (line, title) ->
  article_list !! k = Some line /\
  exists content,
    outcome (process_one_article srv line) = Ok (content, title).
Proof.
  intros H.
  destruct (logged_by_rank srv _ article_list postproc_fn w
              k line title (Permutation_refl _) H)
    as (Hl & j & origin & content & Hj & Ho & Hr).
  split; [exact Hl|]. exists content.
  assert (j = k) as ->.
  { apply lookup_seq in Hj as [Hj _]. simpl in Hj. congruence. }
  rewrite Hl in Ho. injection Ho as <-. exact Hr.
Qed.

Lemma main_logs_origin_in_submission_order_witness :
  ["1706.03762"; "1810.04805"] !! 1 = Some "1810.04805" /\
  exists content,
    outcome (process_one_article two_server "1810.04805")
    = Ok (content, PyStr "BERT").
Proof.
  apply (main_logs_origin_in_submission_order two_server
           ["1706.03762"; "1810.04805"] (Some counting) 0 1 "1810.04805"
           (PyStr "BERT")).
  vm_compute. reflexivity.
Defined.

(** What the loop raises is the error of a run or of the callback. *)
Lemma consume_raises {W : Type} (article_list : list string)
    (f : callback W) :
  forall completed aidx w e,
    aidx + length completed <= length article_list ->
    main_outcome (consume article_list (Some f) aidx completed w) = Raise e ->
    In (Raise e) completed \/
    exists title content w1 w2,
      In (Ok (content, title)) completed /\
      f title content w1 = (Raise e, w2).
Proof.
  induction completed as [|[[pdf_file title]|e0] rest IH];
    intros aidx w e Hlen; cbn [consume length] in *.
  - discriminate.
  - destruct (lookup_lt_is_Some_2 article_list aidx) as [line ->]; [lia|].
    destruct (f title pdf_file w) as [[u|e1] w1] eqn:F.
    + specialize (IH (S aidx) w1 e ltac:(lia)).
      destruct (consume article_list (Some f) (S aidx) rest w1) as [[t r] w'].
      unfold main_outcome in *. cbn [fst snd] in *.
      intros H. destruct (IH H) as [Hin|(ti & c & wa & wb & Hin & Hf)].
      * left. right. exact Hin.
      * right. exists ti, c, wa, wb. split; [right; exact Hin | exact Hf].
    + unfold main_outcome. cbn [fst snd]. intros [= ->].
      right. exists title, pdf_file, w, w1. split; [left; reflexivity | exact F].
  - unfold main_outcome. cbn [fst snd]. intros [= ->]. left. left. reflexivity.
Qed.

(** X12.  What [main] raises comes from one article: it is what the
    pipeline run of a line of the batch raised, or what the callback
    raised when invoked with the result of the run of a line of the
    batch. *)
Theorem main_raises_for_one_article {W : Type} (srv : server)
    (order : list nat) (article_list : list string) (f : callback W) (w : W)
    (e : exn) :
  Permutation order (seq 0 (length article_list)) ->
  main_outcome (main srv order article_list (Some f) w) = Raise e ->
  exists line, In line article_list /\
    (outcome (process_one_article srv line) = Raise e \/
     exists title content w1 w2,
       outcome (process_one_article srv line) = Ok (content, title) /\
       f title content w1 = (Raise e, w2)).
Proof.
  intros P H. unfold main in H.
  apply consume_raises in H.
  2:{ rewrite (completed_length srv article_list order P). simpl. lia. }
  assert (Origin : forall r,
            In r (as_completed (map outcome (map (process_one_article srv)
                                               article_list)) order) ->
            exists line, In line article_list /\
                         outcome (process_one_article srv line) = r).
  { intros r Hr. apply as_completed_In in Hr.
    apply in_map_iff in Hr as (m & <- & Hm).
    apply in_map_iff in Hm as (line & <- & Hl). exists line. split; auto. }
  destruct H as [Hin|(title & content & w1 & w2 & Hin & Hf)].
  - apply Origin in Hin as (line & Hl & Hr). exists line. auto.
  - apply Origin in Hin as (line & Hl & Hr). exists line. split; [exact Hl|].
    right. exists title, content, w1, w2. split; assumption.
Qed.

Lemma main_raises_for_one_article_witness :
  exists line, In line ["1706.03762"; "1810.04805"] /\
    (outcome (process_one_article two_server line)
     = Raise (RuntimeError "no room") \/
     exists title content w1 w2,
       outcome (process_one_article two_server line) = Ok (content, title) /\
       refusing title content w1 = (Raise (RuntimeError "no room"), w2)).
Proof.
  apply (main_raises_for_one_article two_server [1; 0]
           ["1706.03762"; "1810.04805"] refusing 0).
  - simpl. apply perm_swap.
  - vm_compute. reflexivity.
Defined.

(** ** The input, further *)

Lemma split_go_free (sep : ascii) (t : string) :
  Re.all_chars (fun c => negb (Ascii.eqb c sep)) t = true ->
  split_go sep t = (t, []).
Proof.
  induction t as [|c t IH]; [reflexivity|]. cbn [Re.all_chars split_go].
  intros H. apply andb_true_iff in H as [Hc Ht]. rewrite (IH Ht).
  apply negb_true_iff in Hc. rewrite Hc. reflexivity.
Qed.

Lemma split_go_app (sep : ascii) (t rest : string) :
  Re.all_chars (fun c => negb (Ascii.eqb c sep)) t = true ->
  split_go sep (t +:+ String sep rest) = (t, split sep rest).
Proof.
  induction t as [|c t IH].
  - intros _. rewrite app_nil_l. cbn [split_go]. unfold split.
    destruct (split_go sep rest). rewrite Ascii.eqb_refl. reflexivity.
  - cbn [Re.all_chars]. intros H. apply andb_true_iff in H as [Hc Ht].
    rewrite app_cons. cbn [split_go]. rewrite (IH Ht).
    apply negb_true_iff in Hc. rewrite Hc. reflexivity.
Qed.

(** Splitting what was joined gives the tokens back, when none of them
    holds the separator. *)
Lemma split_join (sep : ascii) (l : list string) :
  l <> [] ->
  Forall (fun t => Re.all_chars (fun c => negb (Ascii.eqb c sep)) t = true) l ->
  split sep (join (String sep "") l) = l.
Proof.
  induction l as [|x l IH]; [congruence|]. intros _ H.
  inversion H as [|? ? Hx Hl]; subst. destruct l as [|y l].
  - cbn [join]. unfold split. rewrite (split_go_free _ _ Hx). reflexivity.
  - rewrite join_cons. unfold split at 1.
    change (String sep "" +:+ join (String sep "") (y :: l))
      with (String sep (join (String sep "") (y :: l))).
    rewrite (split_go_app _ _ _ Hx), IH; [reflexivity | discriminate | exact Hl].
Qed.

Lemma split_tokens_free (sep : ascii) (s : string) :
  Forall (fun t => Re.all_chars (fun c => negb (Ascii.eqb c sep)) t = true)
    (split sep s).
Proof.
  unfold split. induction s as [|c s IH]; [repeat constructor|].
  cbn [split_go]. destruct (split_go sep s) as [tok toks].
  inversion IH as [|? ? Ht Hts]; subst.
  destruct (Ascii.eqb c sep) eqn:C.
  - constructor; [reflexivity|]. constructor; assumption.
  - constructor; [|assumption]. cbn [Re.all_chars]. rewrite C, Ht. reflexivity.
Qed.

Lemma lstrip_all (p : ascii -> bool) (s : string) :
  Re.all_chars p s = true -> Re.all_chars p (lstrip s) = true.
Proof.
  induction s as [|c s IH]; [reflexivity|]. cbn [lstrip].
  destruct (isspace c); [|tauto].
  cbn [Re.all_chars]. intros H. apply andb_true_iff in H as [_ H]. auto.
Qed.

Lemma rstrip_all (p : ascii -> bool) (s : string) :
  Re.all_chars p s = true -> Re.all_chars p (rstrip s) = true.
Proof.
  induction s as [|c s IH]; [reflexivity|]. cbn [rstrip Re.all_chars].
  intros H. apply andb_true_iff in H as [Hc Hs]. specialize (IH Hs).
  destruct (rstrip s).
  - destruct (isspace c); [reflexivity|]. cbn [Re.all_chars]. rewrite Hc.
    reflexivity.
  - cbn [Re.all_chars] in *. rewrite Hc, IH. reflexivity.
Qed.

(** A text without white space around it is its own [strip]. *)
Lemma strip_clean (t : string) :
  starts_with_space t = false -> ends_with_space t = false -> strip t = t.
Proof.
  unfold strip. intros Hs He.
  assert (L : lstrip t = t).
  { destruct t as [|c t]; [reflexivity|]. simpl in *. rewrite Hs. reflexivity. }
  rewrite L. clear Hs L. induction t as [|c t IH]; [reflexivity|].
  cbn [rstrip]. destruct t as [|d t].
  - simpl in *. rewrite He. reflexivity.
  - rewrite IH; [reflexivity | exact He].
Qed.

(** X13.  What [generate_article_list] returns is never empty, and each
    of its tokens is free of commas and of white space around it; an
    argument that is absent or empty is refused with the [ValueError]
    that asks for input. *)
Theorem generate_article_list_tokens (fsys : filesystem)
    (input_str : option string) :
  (forall l, generate_article_list fsys input_str = Ok l ->
             l <> [] /\ Forall clean_token l) /\
  (truthy input_str = false ->
   generate_article_list fsys input_str
   = Raise (ValueError "must supply input")).
Proof.
  split.
  - intros l H. apply generate_article_list_returns_tokens in H. subst l.
    split.
    + intros E. apply (f_equal (@length string)) in E.
      rewrite length_map in E.
      pose proof (split_length ","%char (default "" input_str)). simpl in E. lia.
    + apply Forall_forall. intros t Ht. apply list_elem_of_In in Ht.
      apply in_map_iff in Ht as (t0 & <- & Ht0).
      pose proof (split_tokens_free ","%char (default "" input_str)) as F.
      rewrite Forall_forall in F.
      specialize (F t0 (proj2 (list_elem_of_In _ _) Ht0)).
      destruct (strip_trimmed t0) as (l0 & r0 & _ & _ & _ & Hs & He).
      split; [|split; assumption].
      unfold comma_free, strip. apply rstrip_all, lstrip_all. exact F.
  - unfold generate_article_list. intros ->. reflexivity.
Qed.

Lemma generate_article_list_tokens_witness :
  (["1706.03762"; "1810.04805"] <> [] /\
   Forall clean_token ["1706.03762"; "1810.04805"]) /\
  generate_article_list ∅ None = Raise (ValueError "must supply input").
Proof.
  split.
  - apply (proj1 (generate_article_list_tokens ∅
                    (Some " 1706.03762 ,1810.04805"))).
    vm_compute. reflexivity.
  - apply (proj2 (generate_article_list_tokens ∅ None)). reflexivity.
Defined.

(** X14.  The list of identifiers separated by commas is read back as it
    was written: for tokens free of commas and of white space around
    them, [generate_article_list] of their join is the tokens, provided
    the join is not empty and, when there is one token only, it is not
    the path of a file. *)
Theorem generate_article_list_of_join (fsys : filesystem)
    (ids : list string) :
  Forall clean_token ids -> ids <> [] ->
  join "," ids <> "" ->
  (forall t, ids = [t] -> isfile fsys t = false) ->
  generate_article_list fsys (Some (join "," ids)) = Ok ids.
Proof.
  intros Hc Hne Hj Hf. unfold generate_article_list.
  rewrite (truthy_nonempty _ Hj). cbn [negb from_option id].
  assert (E : map strip (split ","%char (join "," ids)) = ids).
  { rewrite (split_join ","%char ids Hne).
    - clear Hne Hj Hf. induction Hc as [|t l (_ & Hs & He) _ IH];
        [reflexivity|].
      cbn [map]. rewrite (strip_clean t Hs He), IH. reflexivity.
    - eapply Forall_impl; [exact Hc|]. intros t (H & _). exact H. }
  rewrite E.
  destruct ids as [|t [|u l]]; [congruence| |reflexivity].
  cbn [length Nat.eqb andb head from_option id].
  rewrite (Hf t eq_refl). reflexivity.
Qed.

Lemma generate_article_list_of_join_witness :
  generate_article_list ids_fs (Some (join "," ["1706.03762"; "1810.04805"]))
  = Ok ["1706.03762"; "1810.04805"].
Proof.
  apply (generate_article_list_of_join ids_fs ["1706.03762"; "1810.04805"]).
  - repeat constructor.
  - discriminate.
  - discriminate.
  - intros t H. discriminate H.
Defined.

(** ** The setup, saving and printing *)

(** [setup_printing] only writes output. *)
Lemma setup_printing_frame (cups : cups_env) (should_print : bool) (w : world) :
  same_but_out w (setup_printing cups should_print w).2.
Proof.
  unfold setup_printing, same_but_out.
  destruct should_print; [|repeat split].
  destruct (setup_printing_try cups) as [[[pr loc]|e]|]; repeat split.
Qed.

(** X15.  [setup_printing] hands out a printer only when printing was
    asked for and the print service is there with printers and a default
    destination among them; the printer is that default destination on
    that connection.  Whatever it returns, it has touched neither the
    file system nor the jobs nor the record of the temporary
    directory. *)
Theorem setup_printing_gives_the_default (cups : cups_env)
    (should_print : bool) (w : world) :
  same_but_out w (setup_printing cups should_print w).2 /\
  forall pr, (setup_printing cups should_print w).1 = Some pr ->
    should_print = true /\ cups = Cups (pr_conn pr) /\
    getDefault (pr_conn pr) = Some (pr_name pr) /\
    is_Some (getPrinters (pr_conn pr) !! pr_name pr).
Proof.
  split; [apply setup_printing_frame|].
  unfold setup_printing. intros pr.
  destruct should_print; [|discriminate].
  unfold setup_printing_try.
  destruct cups as [|e|conn]; try discriminate.
  destruct (bool_decide (getPrinters conn = ∅)); [discriminate|].
  destruct (getDefault conn) as [name|] eqn:D; [|discriminate].
  destruct (getPrinters conn !! name) as [attrs|] eqn:L; [|discriminate].
  cbn [fst]. intros [= <-]. cbn [pr_conn pr_name].
  repeat split; try assumption. exists attrs. exact L.
Qed.

Lemma setup_printing_gives_the_default_witness :
  true = true /\ Cups office_conn = Cups office_conn /\
  getDefault office_conn = Some "office" /\
  is_Some (getPrinters office_conn !! "office").
Proof.
  apply (proj2 (setup_printing_gives_the_default (Cups office_conn) true
                  (start tmp_fs))
           {| pr_conn := office_conn; pr_name := "office" |}).
  vm_compute. reflexivity.
Defined.

(** X16.  When [save_file_fn] returns, it returns the path that joins
    the directory it was set up with and the file name; the file at
    that path holds the content it was given, and what the paths that
    name other places name has not changed. *)
Theorem save_file_fn_writes_the_content (save_dir : option string)
    (filename : string) (bin_content : pyval) (w w' : world) (p : string) :
  save_file_fn save_dir filename bin_content w = (Ok p, w') ->
  exists d b,
    save_dir = Some d /\ bin_content = PyBytes b /\
    p = path_join d filename /\
    fs w' !! p = Some (File b) /\
    (forall q, abspath (fs w) q <> abspath (fs w) p ->
               fs w' !! q = fs w !! q) /\
    cwd (fs w') = cwd (fs w) /\
    temp_dir w' = temp_dir w /\ jobs w' = jobs w.
Proof. apply save_file_fn_Ok. Qed.

Lemma save_file_fn_writes_the_content_witness :
  exists d b,
    Some "/tmp" = Some d /\ PyBytes pdf_fake = PyBytes b /\
    "/tmp/BERT.pdf" = path_join d "BERT.pdf" /\
    fs (save_file_fn (Some "/tmp") "BERT.pdf" (PyBytes pdf_fake)
          (start tmp_fs)).2 !! "/tmp/BERT.pdf" = Some (File b) /\
    (forall q, abspath (fs (start tmp_fs)) q
               <> abspath (fs (start tmp_fs)) "/tmp/BERT.pdf" ->
       fs (save_file_fn (Some "/tmp") "BERT.pdf" (PyBytes pdf_fake)
             (start tmp_fs)).2 !! q = fs (start tmp_fs) !! q) /\
    cwd (fs (save_file_fn (Some "/tmp") "BERT.pdf" (PyBytes pdf_fake)
               (start tmp_fs)).2) = cwd (fs (start tmp_fs)) /\
    temp_dir (save_file_fn (Some "/tmp") "BERT.pdf" (PyBytes pdf_fake)
                (start tmp_fs)).2 = temp_dir (start tmp_fs) /\
    jobs (save_file_fn (Some "/tmp") "BERT.pdf" (PyBytes pdf_fake)
            (start tmp_fs)).2 = jobs (start tmp_fs).
Proof.
  apply (save_file_fn_writes_the_content (Some "/tmp") "BERT.pdf"
           (PyBytes pdf_fake) (start tmp_fs)
           (save_file_fn (Some "/tmp") "BERT.pdf" (PyBytes pdf_fake)
              (start tmp_fs)).2 "/tmp/BERT.pdf").
  vm_compute. reflexivity.
Defined.

Lemma save_file_fn_frame (save_dir : option string) (filename : string)
    (bin_content : pyval) (w : world) :
  temp_dir (save_file_fn save_dir filename bin_content w).2 = temp_dir w /\
  jobs (save_file_fn save_dir filename bin_content w).2 = jobs w.
Proof.
  unfold save_file_fn. destruct save_dir as [d|]; [|split; reflexivity].
  cbn zeta. destruct (open_wb _ _); [|split; reflexivity].
  destruct bin_content; split; reflexivity.
Qed.

(** X17.  The post-processing step submits a print job only for a file
    it has just saved: either the jobs are as they were, or one job was
    added, for the default printer, with the title as its name and the
    path of a file that now holds the content. *)
Theorem postprocess_fn_prints_what_it_saved
    (save_fn : option (option string)) (print_fn : option printer)
    (title pdf_content : pyval) (w : world) :
  let w' := (postprocess_fn save_fn print_fn title pdf_content w).2 in
  temp_dir w' = temp_dir w /\
  (jobs w' = jobs w \/
   exists pr d t b,
     print_fn = Some pr /\ save_fn = Some (Some d) /\
     title = PyStr t /\ pdf_content = PyBytes b /\
     fs w' !! path_join d (t +:+ ".pdf") = Some (File b) /\
     jobs w' = jobs w ++ [(pr_name pr, path_join d (t +:+ ".pdf"), t)]).
Proof.
  cbn zeta. unfold postprocess_fn.
  destruct save_fn as [save_dir|]; [|split; [|left]; reflexivity].
  destruct title as [t|]; [|split; [|left]; reflexivity].
  pose proof (save_file_fn_frame save_dir (t +:+ ".pdf") pdf_content w)
    as [Ft Fj].
  destruct (save_file_fn save_dir (t +:+ ".pdf") pdf_content w)
    as [[filepath|e] w1] eqn:S; cbn [snd] in *; [|split; [|left]; assumption].
  apply save_file_fn_Ok in S as (d & b & -> & -> & -> & Hfile & _ & _ & _ & _).
  destruct print_fn as [pr|]; [|split; [|left]; assumption].
  unfold print_one_file.
  destruct (printFile _ _ _ _) as [job_id|e]; cbn [snd];
    [|split; [|left]; assumption].
  split; [exact Ft|]. right. exists pr, d, t, b. cbn.
  rewrite Fj. repeat split. exact Hfile.
Qed.

Example postprocess_fn_prints_what_it_saved_ex :
  jobs (postprocess_fn (Some (Some "/tmp"))
          (Some {| pr_conn := office_conn; pr_name := "office" |})
          (PyStr "BERT") (PyBytes pdf_fake) (start tmp_fs)).2
  = [("office", "/tmp/BERT.pdf", "BERT")].
Proof. vm_compute. reflexivity. Qed.

(** ** The script, further *)

Lemma postprocess_fn_temp_dir (save_fn : option (option string))
    (print_fn : option printer) (title pdf_content : pyval) (w : world) :
  temp_dir (postprocess_fn save_fn print_fn title pdf_content w).2 = temp_dir w.
Proof.
  unfold postprocess_fn.
  destruct save_fn as [save_dir|]; [|reflexivity].
  destruct title as [t|]; [|reflexivity].
  pose proof (save_file_fn_frame save_dir (t +:+ ".pdf") pdf_content w)
    as [Ft _].
  destruct (save_file_fn _ _ _ _) as [[filepath|e] w1]; cbn [snd] in *;
    [|exact Ft].
  destruct print_fn as [pr|]; [|exact Ft].
  unfold print_one_file. destruct (printFile _ _ _ _); exact Ft.
Qed.

Lemma script_finally_no_temp (r : result unit) (w : world) :
  temp_dir w = None -> script_finally r w = (r, w).
Proof. unfold script_finally. intros ->. reflexivity. Qed.

(** X18.  With a directory to save to, the run records no temporary
    directory and its [finally] block removes nothing: the run ends as
    its [try] block ended. *)
Theorem script_with_save_dir_removes_nothing (E : env) (a : args)
    (f : filesystem) :
  truthy (arg_save a) = true ->
  temp_dir (script_try E a (start f)).2 = None /\
  script E a (start f) = script_try E a (start f).
Proof.
  intros Hs.
  assert (T : temp_dir (script_try E a (start f)).2 = None).
  { unfold script_try.
    pose proof (setup_printing_frame (env_cups E) (arg_print a) (start f))
      as (_ & Ht & _).
    destruct (setup_printing (env_cups E) (arg_print a) (start f))
      as [print_fn w1]. cbn [snd] in Ht.
    unfold setup_saving. rewrite Hs. cbn [negb andb].
    assert (Step : forall w2 save_fn,
      temp_dir w2 = None ->
      temp_dir (match generate_article_list (fs w2) (arg_input a) with
                | Ok articles =>
                    let '(_, r, w4) :=
                      main (env_server E) (env_order E) articles
                        (Some (postprocess_fn save_fn print_fn))
                        (say ("given " +:+ join "," articles +:+ " as input")
                           w2) in
                    (r, w4)
                | Raise e => (Raise e, w2)
                end).2 = None).
    { intros w2 save_fn H2.
      destruct (generate_article_list (fs w2) (arg_input a)) as [articles|e];
        [|exact H2].
      unfold main.
      match goal with
      | |- context [consume ?l (Some ?g) ?i ?cs ?ws] =>
          pose proof (consume_keeps (fun x => temp_dir x = None) g l
                        (fun ti co x H =>
                           eq_trans (postprocess_fn_temp_dir _ _ ti co x) H)
                        cs i ws H2) as K;
          destruct (consume l (Some g) i cs ws) as [[t r] w4]
      end.
      exact K. }
    destruct (path_exists (fs w1) (default "" (arg_save a))).
    - apply Step. exact Ht.
    - destruct (mkdir _ _) as [f'|e]; [|exact Ht].
      apply Step. exact Ht. }
  split; [exact T|].
  unfold script. destruct (script_try E a (start f)) as [r w1].
  apply script_finally_no_temp. exact T.
Qed.

Lemma script_with_save_dir_removes_nothing_witness :
  temp_dir (script_try (sample_env NoPycups [1; 0])
              (save_only "/tmp/papers" "1706.03762,1810.04805")
              (start tmp_fs)).2 = None /\
  script (sample_env NoPycups [1; 0])
    (save_only "/tmp/papers" "1706.03762,1810.04805") (start tmp_fs)
  = script_try (sample_env NoPycups [1; 0])
      (save_only "/tmp/papers" "1706.03762,1810.04805") (start tmp_fs).
Proof.
  apply (script_with_save_dir_removes_nothing (sample_env NoPycups [1; 0])
           (save_only "/tmp/papers" "1706.03762,1810.04805") tmp_fs).
  reflexivity.
Defined.

Example save_only_run :
  let run := script (sample_env NoPycups [1; 0])
               (save_only "/tmp/papers" "1706.03762,1810.04805")
               (start tmp_fs) in
  run.1 = Ok tt /\
  fs run.2 !! "/tmp/papers" = Some Dir /\
  fs run.2 !! "/tmp/papers/BERT.pdf" = Some (File []) /\
  fs run.2 !! "/tmp/papers/Attention Is All You Need.pdf"
  = Some (File pdf_fake) /\
  jobs run.2 = [].
Proof. vm_compute. repeat split. Qed.

(** X19.  Without a directory to save to and without a printer (not
    asked for, or not obtained) the run writes nothing: the file system
    and the jobs are at the end as they were at the start. *)
Theorem script_without_saving_writes_nothing (E : env) (a : args)
    (f : filesystem) :
  truthy (arg_save a) = false ->
  (setup_printing (env_cups E) (arg_print a) (start f)).1 = None ->
  fs (script E a (start f)).2 = f /\
  jobs (script E a (start f)).2 = [] /\
  temp_dir (script E a (start f)).2 = None.
Proof.
  intros Hs Hp.
  assert (T : fs (script_try E a (start f)).2 = f /\
              jobs (script_try E a (start f)).2 = [] /\
              temp_dir (script_try E a (start f)).2 = None).
  { unfold script_try.
    pose proof (setup_printing_frame (env_cups E) (arg_print a) (start f))
      as (Hf & Ht & Hj).
    destruct (setup_printing (env_cups E) (arg_print a) (start f))
      as [print_fn w1]. cbn [fst snd] in *. subst print_fn.
    unfold setup_saving. rewrite Hs.
    rewrite (bool_decide_eq_false_2 (is_Some (@None printer)))
      by (intros [? ?]; discriminate).
    cbn [negb andb].
    destruct (generate_article_list _ _) as [articles|e];
      [|repeat split; assumption].
    unfold main.
    match goal with
    | |- context [consume ?l (Some ?g) ?i ?cs ?ws] =>
        pose proof (consume_keeps
                      (fun x => fs x = f /\ jobs x = [] /\ temp_dir x = None)
                      g l (fun ti co x H => H) cs i ws) as K;
        destruct (consume l (Some g) i cs ws) as [[t r] w4]
    end.
    apply K. repeat split; assumption. }
  unfold script. destruct (script_try E a (start f)) as [r w1].
  cbn [snd] in T. destruct T as (Hf & Hj & Ht).
  rewrite (script_finally_no_temp r w1 Ht). repeat split; assumption.
Qed.

Lemma script_without_saving_writes_nothing_witness :
  fs (script (sample_env NoPycups [1; 0])
        (print_only "1706.03762,1810.04805") (start tmp_fs)).2 = tmp_fs /\
  jobs (script (sample_env NoPycups [1; 0])
          (print_only "1706.03762,1810.04805") (start tmp_fs)).2 = [] /\
  temp_dir (script (sample_env NoPycups [1; 0])
              (print_only "1706.03762,1810.04805") (start tmp_fs)).2 = None.
Proof.
  apply (script_without_saving_writes_nothing (sample_env NoPycups [1; 0])
           (print_only "1706.03762,1810.04805") tmp_fs); reflexivity.
Defined.

Lemma generate_article_list_no_input (fsys : filesystem)
    (input_str : option string) :
  truthy input_str = false ->
  generate_article_list fsys input_str = Raise (ValueError "must supply input").
Proof. unfold generate_article_list. intros ->. reflexivity. Qed.

(** X20.  The input is looked at after the setup: a run without input
    raises the [ValueError] that asks for it, has submitted no job, and
    when the setup had made a temporary directory, that directory is
    gone again at the end. *)
Theorem script_without_input (E : env) (a : args) (f : filesystem) :
  truthy (arg_input a) = false -> truthy (arg_save a) = false ->
  env_tmp E <> "" -> f !! env_tmp E = None ->
  (script E a (start f)).1 = Raise (ValueError "must supply input") /\
  jobs (script E a (start f)).2 = [] /\
  fs (script E a (start f)).2 !! env_tmp E = None.
Proof.
  intros Hin Hs Hn Hfresh. unfold script, script_try.
  pose proof (setup_printing_frame (env_cups E) (arg_print a) (start f))
    as (Hf & Ht & Hj).
  destruct (setup_printing (env_cups E) (arg_print a) (start f))
    as [[pr|] w1]; cbn [snd] in *.
  - rewrite (setup_saving_temp _ _ pr _ Hs),
      (generate_article_list_no_input _ _ Hin).
    unfold script_finally. cbn [temp_dir say set_temp_dir].
    rewrite (truthy_nonempty _ Hn). cbn [from_option id].
    destruct (rmtree_Dir (env_tmp E)
                (fs (say "deleting temporary directory"
                       (say ("saving to " +:+ env_tmp E)
                          (set_temp_dir (Some (env_tmp E))
                             (set_fs (<[env_tmp E := Dir]> (fs w1)) w1))))))
      as (f' & -> & Hc' & Hgone); [apply lookup_fs_insert_Dir; exact Hn|].
    cbn [fst snd fs set_fs jobs say]. repeat split; [exact Hj|].
    refine (rmtree_gone f _ f' (env_tmp E) _ Hn Hfresh Hc' Hgone _
              (under_refl _ _)).
    cbn [fs say set_temp_dir set_fs]. rewrite Hf. reflexivity.
  - unfold setup_saving. rewrite Hs.
    rewrite (bool_decide_eq_false_2 (is_Some (@None printer)))
      by (intros [? ?]; discriminate).
    cbn [negb andb].
    rewrite (generate_article_list_no_input _ _ Hin).
    rewrite script_finally_no_temp by exact Ht.
    cbn. rewrite Hf, Hj. repeat split. exact Hfresh.
Qed.

Lemma script_without_input_witness :
  (script (sample_env (Cups office_conn) [])
     {| arg_save := None; arg_print := true; arg_input := None |}
     (start tmp_fs)).1 = Raise (ValueError "must supply input") /\
  jobs (script (sample_env (Cups office_conn) [])
          {| arg_save := None; arg_print := true; arg_input := None |}
          (start tmp_fs)).2 = [] /\
  fs (script (sample_env (Cups office_conn) [])
        {| arg_save := None; arg_print := true; arg_input := None |}
        (start tmp_fs)).2 !! "/tmp/tmpq1w2e3r4" = None.
Proof.
  apply (script_without_input (sample_env (Cups office_conn) [])
           {| arg_save := None; arg_print := true; arg_input := None |}
           tmp_fs).
  - reflexivity.
  - reflexivity.
  - discriminate.
  - vm_compute. reflexivity.
Defined.

(** ** What is fetched and what is returned *)

(** X21.  The title that [get_pdf_name] returns is fit for a file name
    of one line: it holds no line feed and has no white space around
    it; and the identifier returned with it is digits, a dot, digits. *)
Theorem get_pdf_name_title_is_trimmed_line (srv : server) (aid id t : string) :
  outcome (get_pdf_name srv aid) = Ok (id, t) ->
  embedded_id id /\ Re.all_chars Re.is_any t = true /\
  starts_with_space t = false /\ ends_with_space t = false.
Proof.
  rewrite get_pdf_name_outcome.
  destruct (srv _) as [resp|]; [|discriminate].
  destruct (400 <=? status resp); [discriminate|].
  pose proof (search_title_cases (text resp)) as T.
  destruct (Re.search FIND_TITLE_REGEX (text resp)) as [m|]; [|discriminate].
  destruct T as (id0 & t0 & Hid & Ht & _ & -> & ->).
  intros [= <- <-]. split; [exact Hid|].
  destruct (strip_trimmed t0) as (l & r & _ & _ & _ & Hs & He).
  split; [|split; assumption].
  unfold strip. apply rstrip_all, lstrip_all. exact Ht.
Qed.

Lemma get_pdf_name_title_is_trimmed_line_witness :
  embedded_id "1706.03762" /\
  Re.all_chars Re.is_any "Attention Is All You Need" = true /\
  starts_with_space "Attention Is All You Need" = false /\
  ends_with_space "Attention Is All You Need" = false.
Proof.
  apply (get_pdf_name_title_is_trimmed_line attention_server "1706.03762").
  vm_compute. reflexivity.
Defined.

(** X22.  A run requests nothing but the summary and the document of
    the identifier it extracted from its line. *)
Theorem process_one_article_requests (srv : server) (line url : string) :
  In (Get url) (trace (process_one_article srv line)) ->
  exists aid, get_article_id line = Ok aid /\
    (url = ARXIV_ABS_URL_BASE +:+ aid \/ url = ARXIV_PDF_URL_BASE +:+ aid).
Proof.
  rewrite process_one_article_steps.
  destruct (get_article_id line) as [aid|e]; [|intros []].
  cbn zeta. intros H. exists aid. split; [reflexivity|].
  assert (Two : In (Get url) [Info ("processing article " +:+ aid);
                              Get (ARXIV_ABS_URL_BASE +:+ aid)] ->
                url = ARXIV_ABS_URL_BASE +:+ aid).
  { intros [D|[D|[]]]; [discriminate D|].
    symmetry. exact (f_equal (fun ev => match ev with Get u => u | _ => "" end) D). }
  destruct (outcome (get_pdf_name srv aid)) as [[parsed title]|e];
    [|left; exact (Two H)].
  destruct (String.eqb aid parsed); [|left; exact (Two H)].
  unfold trace in H. cbn [fst] in H. apply in_app_or in H as [H|[D|[]]].
  - left. exact (Two H).
  - right. symmetry.
    exact (f_equal (fun ev => match ev with Get u => u | _ => "" end) D).
Qed.

Lemma process_one_article_requests_witness :
  exists aid, get_article_id "see arXiv:1706.03762v5" = Ok aid /\
    ("https://arxiv.org/pdf/1706.03762" = ARXIV_ABS_URL_BASE +:+ aid \/
     "https://arxiv.org/pdf/1706.03762" = ARXIV_PDF_URL_BASE +:+ aid).
Proof.
  apply (process_one_article_requests attention_server
           "see arXiv:1706.03762v5" "https://arxiv.org/pdf/1706.03762").
  vm_compute. right. right. left. reflexivity.
Defined.

(** ** The directory to save to *)





(** The directory to save to, under the names it goes by: with a slash
    at the end, from the working directory, through the parent. *)
Example spellings_of_a_directory :
  isdir tmp_fs "/tmp/" = true /\ isdir tmp_fs "." = true /\
  isdir tmp_fs "../tmp" = true /\ isdir tmp_fs "/home" = true /\
  path_exists tmp_fs "" = false /\ path_exists tmp_fs "/tmp/papers/" = false /\
  (exists f, mkdir "/tmp/papers/" tmp_fs = Ok f /\
             path_exists f "/tmp/papers" = true /\
             path_exists f "/tmp/./papers/" = true /\
             mkdir "/tmp/papers" f = Raise (FileExistsError "/tmp/papers")) /\
  (exists f, mkdir "./papers" tmp_fs = Ok f /\
             path_exists f "papers/" = true /\
             path_exists f "/home/papers" = true) /\
  mkdir "/tmp/a/b" tmp_fs = Raise (FileNotFoundError "/tmp/a/b") /\
  mkdir "." tmp_fs = Raise (FileExistsError ".").
Proof.
  repeat split; try (vm_compute; reflexivity);
    eexists; (split; [vm_compute; reflexivity|]); repeat split;
    vm_compute; reflexivity.
Qed.

(** A directory that is there is found under another spelling, and the
    setup leaves the file system as it is. *)
Example setup_saving_finds_the_directory :
  fs (setup_saving "/tmp/tmpq1w2e3r4" (Some "../tmp/") None (start tmp_fs)).2
  = tmp_fs.
Proof. vm_compute. reflexivity. Qed.
